(** * Smart door controller: servo lock, linear actuator and their orchestration

    A shallow embedding of [Servo.cpp], [Contractor.cpp] and [SmartDoor.cpp]
    (examples/complex_project/src).  Every C++ object is a record, every
    member function a function from the object's state to the returned value
    paired with the new state.  [const] member functions return a value only.
    Writes to [std::cout] / [std::cerr] carry no state and are left out.

    A destructor runs once, after which the object is gone; it is not part
    of any call sequence, and [destructor] gives the state it leaves the
    devices in.  The text built by [getStatusReport] is left out.

    C++ [int] values are integers in [Z].  The only arithmetic in the three
    classes is [openAttempts++]; its two's-complement wrap-around is written
    out in [int_incr].  Signed overflow being undefined in C++, the call
    sequences followed by [SmartDoor.reachable] are those in which that
    increment is never taken at [INT_MAX]. *)

From Stdlib Require Import ZArith String Bool Lia.

Local Open Scope string_scope.
Local Open Scope Z_scope.

(** ** 32-bit [int] *)

Definition INT_MAX : Z := 2147483647.
Definition INT_MIN : Z := -2147483648.

Definition int_wrap (z : Z) : Z := (z + 2 ^ 31) mod 2 ^ 32 - 2 ^ 31.

(** [x++] on an [int]. *)
Definition int_incr (x : Z) : Z := int_wrap (x + 1).

(** ** Servo.cpp *)

Module Servo.

Record t : Type := mk
  { currentAngle : Z;
    minAngle : Z;
    maxAngle : Z;
    isCalibrated : bool;
    name : string }.

Definition set_currentAngle (a : Z) (s : t) : t :=
  mk a (minAngle s) (maxAngle s) (isCalibrated s) (name s).

Definition set_isCalibrated (b : bool) (s : t) : t :=
  mk (currentAngle s) (minAngle s) (maxAngle s) b (name s).

(** [Servo::Servo(servoName)] *)
Definition new (servoName : string) : t := mk 90 0 180 false servoName.

(** [Servo::calibrate] *)
Definition calibrate (s : t) : bool * t :=
  (true, set_isCalibrated true (set_currentAngle 0 s)).

(** [Servo::setAngle]: the range test comes first; the calibration test
    only prints a warning. *)
Definition setAngle (angle : Z) (s : t) : bool * t :=
  if (angle <? minAngle s) || (angle >? maxAngle s) then (false, s)
  else (true, set_currentAngle angle s).

Definition getAngle (s : t) : Z := currentAngle s.

Definition isCalibratedStatus (s : t) : bool := isCalibrated s.

(** [Servo::reset] *)
Definition reset (s : t) : t := set_currentAngle 90 s.

Definition getName (s : t) : string := name s.

(** The state-changing member functions of a servo. *)
Inductive Call : Type :=
| CallCalibrate
| CallSetAngle (angle : Z)
| CallReset.

Definition exec (k : Call) (s : t) : t :=
  match k with
  | CallCalibrate => snd (calibrate s)
  | CallSetAngle angle => snd (setAngle angle s)
  | CallReset => reset s
  end.

(** States obtained from a constructed servo by a sequence of calls. *)
Inductive reachable : t -> Prop :=
| reach_new (servoName : string) : reachable (new servoName)
| reach_call (k : Call) (s : t) : reachable s -> reachable (exec k s).

End Servo.

(** ** Contractor.cpp *)

Module Contractor.

Inductive State : Type :=
| RETRACTED
| EXTENDING
| EXTENDED
| RETRACTING
| ERROR.

Definition State_eqb (x y : State) : bool :=
  match x, y with
  | RETRACTED, RETRACTED
  | EXTENDING, EXTENDING
  | EXTENDED, EXTENDED
  | RETRACTING, RETRACTING
  | ERROR, ERROR => true
  | _, _ => false
  end.

Record t : Type := mk
  { currentState : State;
    currentPosition : Z;
    maxExtension : Z;
    isInitialized : bool;
    name : string;
    speed : Z }.

Definition set_currentState (st : State) (c : t) : t :=
  mk st (currentPosition c) (maxExtension c) (isInitialized c) (name c) (speed c).

Definition set_currentPosition (p : Z) (c : t) : t :=
  mk (currentState c) p (maxExtension c) (isInitialized c) (name c) (speed c).

Definition set_isInitialized (b : bool) (c : t) : t :=
  mk (currentState c) (currentPosition c) (maxExtension c) b (name c) (speed c).

Definition set_speed (v : Z) (c : t) : t :=
  mk (currentState c) (currentPosition c) (maxExtension c) (isInitialized c) (name c) v.

(** [Contractor::Contractor(contractorName, maxExt)] *)
Definition new (contractorName : string) (maxExt : Z) : t :=
  mk RETRACTED 0 maxExt false contractorName 5.

(** [Contractor::initialize] *)
Definition initialize (c : t) : bool * t :=
  let c := set_currentState RETRACTING c in
  let c := set_currentPosition 0 c in
  let c := set_currentState RETRACTED c in
  let c := set_isInitialized true c in
  (true, c).

(** [Contractor::extend] *)
Definition extend (c : t) : bool * t :=
  if negb (isInitialized c) then (false, c)
  else if State_eqb (currentState c) EXTENDED then (true, c)
  else
    let c := set_currentState EXTENDING c in
    let c := set_currentPosition 100 c in
    let c := set_currentState EXTENDED c in
    (true, c).

(** [Contractor::retract] *)
Definition retract (c : t) : bool * t :=
  if negb (isInitialized c) then (false, c)
  else if State_eqb (currentState c) RETRACTED then (true, c)
  else
    let c := set_currentState RETRACTING c in
    let c := set_currentPosition 0 c in
    let c := set_currentState RETRACTED c in
    (true, c).

(** [Contractor::stop] *)
Definition stop (c : t) : t :=
  if State_eqb (currentState c) EXTENDING || State_eqb (currentState c) RETRACTING
  then set_currentState (if currentPosition c >? 50 then EXTENDED else RETRACTED) c
  else c.

Definition getState (c : t) : State := currentState c.

Definition getPosition (c : t) : Z := currentPosition c.

(** [Contractor::setSpeed] *)
Definition setSpeed (newSpeed : Z) (c : t) : bool * t :=
  if (newSpeed <? 1) || (newSpeed >? 10) then (false, c)
  else (true, set_speed newSpeed c).

(** [Contractor::isReady] *)
Definition isReady (c : t) : bool :=
  isInitialized c && negb (State_eqb (currentState c) ERROR).

Definition getStateString (c : t) : string :=
  match currentState c with
  | RETRACTED => "RETRACTED"
  | EXTENDING => "EXTENDING"
  | EXTENDED => "EXTENDED"
  | RETRACTING => "RETRACTING"
  | ERROR => "ERROR"
  end.

Definition getName (c : t) : string := name c.

(** [Contractor::~Contractor]: the state the actuator is left in when the
    object is released. *)
Definition destructor (c : t) : t :=
  if negb (State_eqb (currentState c) RETRACTED) then snd (retract c) else c.

(** The member functions a client can call on an actuator it owns. *)
Inductive Call : Type :=
| CallInitialize
| CallExtend
| CallRetract
| CallStop
| CallSetSpeed (newSpeed : Z).

Definition exec (k : Call) (c : t) : t :=
  match k with
  | CallInitialize => snd (initialize c)
  | CallExtend => snd (extend c)
  | CallRetract => snd (retract c)
  | CallStop => stop c
  | CallSetSpeed v => snd (setSpeed v c)
  end.

(** States obtained from a constructed actuator by a sequence of calls. *)
Inductive reachable : t -> Prop :=
| reach_new (contractorName : string) (maxExt : Z) :
    reachable (new contractorName maxExt)
| reach_call (k : Call) (c : t) :
    reachable c -> reachable (exec k c).

End Contractor.

(** ** SmartDoor.cpp *)

Module SmartDoor.

Inductive DoorState : Type :=
| CLOSED_LOCKED
| CLOSED_UNLOCKED
| OPENING
| OPEN
| CLOSING
| ERROR_STATE.

Definition DoorState_eqb (x y : DoorState) : bool :=
  match x, y with
  | CLOSED_LOCKED, CLOSED_LOCKED
  | CLOSED_UNLOCKED, CLOSED_UNLOCKED
  | OPENING, OPENING
  | OPEN, OPEN
  | CLOSING, CLOSING
  | ERROR_STATE, ERROR_STATE => true
  | _, _ => false
  end.

(** The two devices are owned by the controller alone (created in the
    constructor, never handed out), so they are fields of its state. *)
Record t : Type := mk
  { lockServo : Servo.t;
    doorActuator : Contractor.t;
    currentState : DoorState;
    isSystemReady : bool;
    doorId : string;
    openAttempts : Z }.

Definition MAX_ATTEMPTS : Z := 3.

Definition set_lockServo (sv : Servo.t) (d : t) : t :=
  mk sv (doorActuator d) (currentState d) (isSystemReady d) (doorId d) (openAttempts d).

Definition set_doorActuator (c : Contractor.t) (d : t) : t :=
  mk (lockServo d) c (currentState d) (isSystemReady d) (doorId d) (openAttempts d).

Definition set_currentState (st : DoorState) (d : t) : t :=
  mk (lockServo d) (doorActuator d) st (isSystemReady d) (doorId d) (openAttempts d).

Definition set_isSystemReady (b : bool) (d : t) : t :=
  mk (lockServo d) (doorActuator d) (currentState d) b (doorId d) (openAttempts d).

Definition set_openAttempts (n : Z) (d : t) : t :=
  mk (lockServo d) (doorActuator d) (currentState d) (isSystemReady d) (doorId d) n.

(** [SmartDoor::SmartDoor(id)] *)
Definition new (id : string) : t :=
  mk (Servo.new ("LockServo_" ++ id))
     (Contractor.new ("DoorActuator_" ++ id) 250)
     CLOSED_LOCKED false id 0.

(** [SmartDoor::lockDoor] *)
Definition lockDoor (d : t) : bool * t :=
  let '(ok, sv) := Servo.setAngle 0 (lockServo d) in
  let d := set_lockServo sv d in
  if negb ok then (false, d) else (true, d).

(** [SmartDoor::unlockDoor] *)
Definition unlockDoor (d : t) : bool * t :=
  let '(ok, sv) := Servo.setAngle 90 (lockServo d) in
  let d := set_lockServo sv d in
  if negb ok then (false, d) else (true, d).

(** [SmartDoor::initialize] *)
Definition initialize (d : t) : bool * t :=
  let '(ok, sv) := Servo.calibrate (lockServo d) in
  let d := set_lockServo sv d in
  if negb ok then (false, set_currentState ERROR_STATE d)
  else
    let '(ok, c) := Contractor.initialize (doorActuator d) in
    let d := set_doorActuator c d in
    if negb ok then (false, set_currentState ERROR_STATE d)
    else
      let '(ok, d) := lockDoor d in
      if negb ok then (false, set_currentState ERROR_STATE d)
      else
        let d := set_isSystemReady true d in
        let d := set_currentState CLOSED_LOCKED d in
        let d := set_openAttempts 0 d in
        (true, d).

(** [SmartDoor::isSafeToOperate] *)
Definition isSafeToOperate (d : t) : bool :=
  if negb (isSystemReady d) then false
  else if DoorState_eqb (currentState d) ERROR_STATE then false
  else if negb (Servo.isCalibratedStatus (lockServo d)) then false
  else if negb (Contractor.isReady (doorActuator d)) then false
  else true.

(** [SmartDoor::open] *)
Definition open (d : t) : bool * t :=
  if negb (isSafeToOperate d) then
    let d := set_openAttempts (int_incr (openAttempts d)) d in
    let d := if openAttempts d >=? MAX_ATTEMPTS
             then set_currentState ERROR_STATE d else d in
    (false, d)
  else if DoorState_eqb (currentState d) OPEN then (true, d)
  else
    let d := set_currentState OPENING d in
    let '(ok, d) := unlockDoor d in
    if negb ok then (false, set_currentState ERROR_STATE d)
    else
      let d := set_currentState CLOSED_UNLOCKED d in
      let '(ok, c) := Contractor.extend (doorActuator d) in
      let d := set_doorActuator c d in
      if negb ok then (false, set_currentState ERROR_STATE d)
      else
        let d := set_currentState OPEN d in
        let d := set_openAttempts 0 d in
        (true, d).

(** [SmartDoor::close] *)
Definition close (d : t) : bool * t :=
  if negb (isSafeToOperate d) then (false, d)
  else if DoorState_eqb (currentState d) CLOSED_LOCKED then (true, d)
  else
    let d := set_currentState CLOSING d in
    let '(ok, c) := Contractor.retract (doorActuator d) in
    let d := set_doorActuator c d in
    if negb ok then (false, set_currentState ERROR_STATE d)
    else
      let d := set_currentState CLOSED_UNLOCKED d in
      let '(ok, d) := lockDoor d in
      if negb ok then (false, set_currentState ERROR_STATE d)
      else
        let d := set_currentState CLOSED_LOCKED d in
        (true, d).

(** [SmartDoor::emergencyStop] *)
Definition emergencyStop (d : t) : t :=
  let d := set_doorActuator (Contractor.stop (doorActuator d)) d in
  if Contractor.getPosition (doorActuator d) >? 50
  then set_currentState OPEN d
  else set_currentState CLOSED_UNLOCKED d.

Definition getState (d : t) : DoorState := currentState d.

Definition getStateString (d : t) : string :=
  match currentState d with
  | CLOSED_LOCKED => "CLOSED_LOCKED"
  | CLOSED_UNLOCKED => "CLOSED_UNLOCKED"
  | OPENING => "OPENING"
  | OPEN => "OPEN"
  | CLOSING => "CLOSING"
  | ERROR_STATE => "ERROR_STATE"
  end.

Definition getDoorId (d : t) : string := doorId d.

(** [SmartDoor::isReady] *)
Definition isReady (d : t) : bool :=
  isSystemReady d && negb (DoorState_eqb (currentState d) ERROR_STATE).

(** [SmartDoor::reset] *)
Definition reset (d : t) : bool * t :=
  let '(closed, d) :=
    if negb (DoorState_eqb (currentState d) CLOSED_LOCKED)
    then close d else (true, d) in
  if negb closed then (false, d)
  else
    let d := set_isSystemReady false d in
    initialize d.

(** [SmartDoor::~SmartDoor]: closes the door unless it is [CLOSED_LOCKED],
    then deletes the servo (whose destructor only prints) and the actuator
    (whose destructor retracts).  The result is the state both devices are
    left in when the controller is released. *)
Definition destructor (d : t) : t :=
  let d := if negb (DoorState_eqb (currentState d) CLOSED_LOCKED)
           then snd (close d) else d in
  set_doorActuator (Contractor.destructor (doorActuator d)) d.

(** The state-changing public member functions.  The remaining public
    members ([getState], [getStateString], [getDoorId], [isReady],
    [getStatusReport]) are [const]. *)
Inductive Call : Type :=
| CallInitialize
| CallOpen
| CallClose
| CallEmergencyStop
| CallReset.

Definition exec (k : Call) (d : t) : t :=
  match k with
  | CallInitialize => snd (initialize d)
  | CallOpen => snd (open d)
  | CallClose => snd (close d)
  | CallEmergencyStop => emergencyStop d
  | CallReset => snd (reset d)
  end.

(** Signed overflow has no defined behaviour in C++: a call has a defined
    result unless it is an [open()] that reaches [openAttempts++] with the
    counter at [INT_MAX]. *)
Definition defined (k : Call) (d : t) : Prop :=
  match k with
  | CallOpen => isSafeToOperate d = true \/ openAttempts d < INT_MAX
  | _ => True
  end.

(** States obtained from a constructed controller by a sequence of public
    calls, each with a defined result. *)
Inductive reachable : t -> Prop :=
| reach_new (id : string) : reachable (new id)
| reach_call (k : Call) (d : t) :
    reachable d -> defined k d -> reachable (exec k d).

End SmartDoor.

(** ** Properties stated about the three classes *)

(** The range every constructed servo has: [minAngle] and [maxAngle] are
    written by the constructor only. *)
Definition servo_default_range (s : Servo.t) : Prop :=
  Servo.minAngle s = 0 /\ Servo.maxAngle s = 180.

(** An actuator record whose motion state is [ERROR], half-way out. *)
Definition errored_actuator : Contractor.t :=
  Contractor.mk Contractor.ERROR 60 250 true "DoorActuator_D1" 5.

(** A controller caught in the middle of [open()], actuator at 60%. *)
Definition mid_opening_door : SmartDoor.t :=
  SmartDoor.mk (Servo.mk 90 0 180 true "LockServo_D1")
               (Contractor.mk Contractor.EXTENDING 60 250 true "DoorActuator_D1" 5)
               SmartDoor.OPENING true "D1" 0.

(** Door state agrees with the hardware: locked means angle 0 and actuator
    at 0, open means angle 90 and actuator at 100. *)
Definition door_consistent (d : SmartDoor.t) : Prop :=
  (SmartDoor.currentState d = SmartDoor.CLOSED_LOCKED ->
     Servo.getAngle (SmartDoor.lockServo d) = 0 /\
     Contractor.getPosition (SmartDoor.doorActuator d) = 0) /\
  (SmartDoor.currentState d = SmartDoor.OPEN ->
     Servo.getAngle (SmartDoor.lockServo d) = 90 /\
     Contractor.getPosition (SmartDoor.doorActuator d) = 100).

(** The same, with the lock angle of a [CLOSED_LOCKED] door constrained
    only once [initialize()] has made the system ready. *)
Definition door_consistent_once_ready (d : SmartDoor.t) : Prop :=
  (SmartDoor.currentState d = SmartDoor.CLOSED_LOCKED ->
     Contractor.getPosition (SmartDoor.doorActuator d) = 0 /\
     (SmartDoor.isSystemReady d = true ->
        Servo.getAngle (SmartDoor.lockServo d) = 0)) /\
  (SmartDoor.currentState d = SmartDoor.OPEN ->
     Servo.getAngle (SmartDoor.lockServo d) = 90 /\
     Contractor.getPosition (SmartDoor.doorActuator d) = 100).

(** The two phases of a controller's life.  Before the first successful
    [initialize()] both devices are as constructed and nothing moves. *)
Definition before_init (d : SmartDoor.t) : Prop :=
  SmartDoor.isSystemReady d = false /\
  Servo.currentAngle (SmartDoor.lockServo d) = 90 /\
  Servo.isCalibrated (SmartDoor.lockServo d) = false /\
  Contractor.isInitialized (SmartDoor.doorActuator d) = false /\
  Contractor.currentState (SmartDoor.doorActuator d) = Contractor.RETRACTED /\
  Contractor.currentPosition (SmartDoor.doorActuator d) = 0 /\
  SmartDoor.currentState d <> SmartDoor.OPEN /\
  SmartDoor.currentState d <> SmartDoor.OPENING /\
  SmartDoor.currentState d <> SmartDoor.CLOSING /\
  0 <= SmartDoor.openAttempts d <= INT_MAX.

(** Afterwards the controller is one of: locked shut, unlocked by an
    emergency stop with the bolt still thrown, or open. *)
Definition after_init (d : SmartDoor.t) : Prop :=
  SmartDoor.isSystemReady d = true /\
  Servo.isCalibrated (SmartDoor.lockServo d) = true /\
  Contractor.isInitialized (SmartDoor.doorActuator d) = true /\
  SmartDoor.openAttempts d = 0 /\
  ((SmartDoor.currentState d = SmartDoor.CLOSED_LOCKED \/
    SmartDoor.currentState d = SmartDoor.CLOSED_UNLOCKED) /\
   Servo.currentAngle (SmartDoor.lockServo d) = 0 /\
   Contractor.currentState (SmartDoor.doorActuator d) = Contractor.RETRACTED /\
   Contractor.currentPosition (SmartDoor.doorActuator d) = 0
   \/
   SmartDoor.currentState d = SmartDoor.OPEN /\
   Servo.currentAngle (SmartDoor.lockServo d) = 90 /\
   Contractor.currentState (SmartDoor.doorActuator d) = Contractor.EXTENDED /\
   Contractor.currentPosition (SmartDoor.doorActuator d) = 100).

Definition door_phase (d : SmartDoor.t) : Prop :=
  servo_default_range (SmartDoor.lockServo d) /\ (before_init d \/ after_init d).

(** The controller for door [id] before [initialize()]: both devices exactly
    as the constructors made them. *)
Definition unready_door (id : string) (st : SmartDoor.DoorState) (attempts : Z)
  : SmartDoor.t :=
  SmartDoor.mk (Servo.new ("LockServo_" ++ id))
               (Contractor.new ("DoorActuator_" ++ id) 250)
               st false id attempts.

(** The controller for door [id] once ready. *)
Definition ready_door (id : string) (st : SmartDoor.DoorState) (angle : Z)
    (motion : Contractor.State) (position : Z) : SmartDoor.t :=
  SmartDoor.mk (Servo.mk angle 0 180 true ("LockServo_" ++ id))
               (Contractor.mk motion position 250 true ("DoorActuator_" ++ id) 5)
               st true id 0.

Definition locked_door (id : string) : SmartDoor.t :=
  ready_door id SmartDoor.CLOSED_LOCKED 0 Contractor.RETRACTED 0.

Definition stopped_door (id : string) : SmartDoor.t :=
  ready_door id SmartDoor.CLOSED_UNLOCKED 0 Contractor.RETRACTED 0.

Definition open_door (id : string) : SmartDoor.t :=
  ready_door id SmartDoor.OPEN 90 Contractor.EXTENDED 100.

(** [n] calls of [open()] in a row. *)
Fixpoint open_times (n : nat) (d : SmartDoor.t) : SmartDoor.t :=
  match n with
  | O => d
  | S n => snd (SmartDoor.open (open_times n d))
  end.

(** The shapes a controller can have between two public calls. *)
Inductive door_shape : SmartDoor.t -> Prop :=
| shape_unready (id : string) (st : SmartDoor.DoorState) (attempts : Z) :
    st = SmartDoor.CLOSED_LOCKED /\ attempts < 3 \/
    st = SmartDoor.CLOSED_UNLOCKED \/
    st = SmartDoor.ERROR_STATE /\ 3 <= attempts ->
    0 <= attempts <= INT_MAX ->
    door_shape (unready_door id st attempts)
| shape_locked (id : string) : door_shape (locked_door id)
| shape_stopped (id : string) : door_shape (stopped_door id)
| shape_open (id : string) : door_shape (open_door id).

(** Discharges the servo-range half of [door_phase] on a concrete servo. *)
Ltac range_ok := split; [split; reflexivity | ].

(** ** The 32-bit counter *)

Lemma int_wrap_in_range (z : Z) : INT_MIN <= z <= INT_MAX -> int_wrap z = z.
Proof.
  unfold INT_MIN, INT_MAX, int_wrap. intros Hz.
  rewrite Z.mod_small; lia.
Qed.

Lemma int_incr_no_overflow (x : Z) :
  INT_MIN <= x < INT_MAX -> int_incr x = x + 1.
Proof.
  intros Hx. unfold int_incr. apply int_wrap_in_range.
  unfold INT_MIN, INT_MAX in *. lia.
Qed.

(** ** Servo *)

(** C8. For every servo state and every integer [a]: inside
    [[minAngle, maxAngle]] the call [setAngle(a)] succeeds and [getAngle()]
    then returns [a], whether or not the servo is calibrated (the calibration
    flag is not consulted for the result and is left as it was); outside the
    range the call fails and the servo is unchanged. *)
Theorem Servo_setAngle_in_and_out_of_range (s : Servo.t) (a : Z) :
  (Servo.minAngle s <= a <= Servo.maxAngle s ->
     fst (Servo.setAngle a s) = true /\
     Servo.getAngle (snd (Servo.setAngle a s)) = a /\
     Servo.isCalibratedStatus (snd (Servo.setAngle a s))
       = Servo.isCalibratedStatus s) /\
  (a < Servo.minAngle s \/ Servo.maxAngle s < a ->
     Servo.setAngle a s = (false, s)).
Proof.
  unfold Servo.setAngle. split.
  - intros [Hlo Hhi].
    assert (Hl : (a <? Servo.minAngle s) = false) by (apply Z.ltb_ge; exact Hlo).
    assert (Hh : (a >? Servo.maxAngle s) = false).
    { rewrite Z.gtb_ltb. apply Z.ltb_ge. exact Hhi. }
    rewrite Hl, Hh. cbn. repeat split.
  - intros Hout.
    assert (Hor : (a <? Servo.minAngle s) || (a >? Servo.maxAngle s) = true).
    { apply orb_true_iff. rewrite Z.gtb_ltb, !Z.ltb_lt. exact Hout. }
    rewrite Hor. reflexivity.
Qed.

Lemma Servo_setAngle_in_and_out_of_range_witness :
  Servo.getAngle (snd (Servo.setAngle 45 (Servo.new "LockServo_D1"))) = 45 /\
  Servo.setAngle 181 (Servo.new "LockServo_D1") = (false, Servo.new "LockServo_D1").
Proof.
  split.
  - refine (proj1 (proj2 (proj1
      (Servo_setAngle_in_and_out_of_range (Servo.new "LockServo_D1") 45) _))).
    cbn. lia.
  - refine (proj2
      (Servo_setAngle_in_and_out_of_range (Servo.new "LockServo_D1") 181) _).
    right. cbn. lia.
Defined.

(** ** Linear actuator *)

(** A motion state of [ERROR] is neither settled nor snapped: [stop()]
    leaves the actuator as it is although the position is past the
    midpoint. *)
Lemma Contractor_stop_keeps_error :
  Contractor.currentState errored_actuator <> Contractor.EXTENDED /\
  Contractor.currentState errored_actuator <> Contractor.RETRACTED /\
  Contractor.currentPosition errored_actuator > 50 /\
  Contractor.currentState (Contractor.stop errored_actuator)
    <> Contractor.EXTENDED /\
  Contractor.stop errored_actuator = errored_actuator.
Proof. cbn. repeat split; try discriminate; lia. Qed.

(** C5 (amended). For every actuator state: when the motion state is
    [EXTENDING] or [RETRACTING], [stop()] keeps the position and every other
    field and sets the motion state to [EXTENDED] if the position exceeds 50
    and to [RETRACTED] otherwise; in the remaining motion states
    ([EXTENDED], [RETRACTED] and [ERROR]) [stop()] changes nothing. *)
Theorem Contractor_stop_midpoint_rule (c : Contractor.t) :
  (Contractor.currentState c = Contractor.EXTENDING \/
   Contractor.currentState c = Contractor.RETRACTING ->
     Contractor.currentPosition (Contractor.stop c) = Contractor.currentPosition c /\
     (Contractor.currentPosition c > 50 ->
        Contractor.currentState (Contractor.stop c) = Contractor.EXTENDED) /\
     (Contractor.currentPosition c <= 50 ->
        Contractor.currentState (Contractor.stop c) = Contractor.RETRACTED) /\
     Contractor.isInitialized (Contractor.stop c) = Contractor.isInitialized c /\
     Contractor.speed (Contractor.stop c) = Contractor.speed c /\
     Contractor.maxExtension (Contractor.stop c) = Contractor.maxExtension c /\
     Contractor.name (Contractor.stop c) = Contractor.name c) /\
  (Contractor.currentState c = Contractor.EXTENDED \/
   Contractor.currentState c = Contractor.RETRACTED \/
   Contractor.currentState c = Contractor.ERROR ->
     Contractor.stop c = c).
Proof.
  destruct c as [st pos mx ini nm sp]. unfold Contractor.stop. cbn. split.
  - intros [-> | ->]; cbn; repeat split; intros Hpos.
    + apply Z.gtb_gt in Hpos. now rewrite Hpos.
    + destruct (pos >? 50) eqn:E; [apply Z.gtb_gt in E; lia | reflexivity].
    + apply Z.gtb_gt in Hpos. now rewrite Hpos.
    + destruct (pos >? 50) eqn:E; [apply Z.gtb_gt in E; lia | reflexivity].
  - intros [-> | [-> | ->]]; reflexivity.
Qed.

Lemma Contractor_stop_midpoint_rule_witness :
  Contractor.currentState
    (Contractor.stop (SmartDoor.doorActuator mid_opening_door))
    = Contractor.EXTENDED /\
  Contractor.stop errored_actuator = errored_actuator.
Proof.
  split.
  - refine (proj1 (proj2 (proj1
      (Contractor_stop_midpoint_rule (SmartDoor.doorActuator mid_opening_door))
      _)) _).
    + left. reflexivity.
    + cbn. lia.
  - refine (proj2 (Contractor_stop_midpoint_rule errored_actuator) _).
    right. right. reflexivity.
Defined.

(** C9. On every initialized actuator, [extend()] followed by [retract()]
    both succeed and leave the actuator at position 0 in state
    [RETRACTED]. *)
Theorem Contractor_extend_retract_roundtrip (c : Contractor.t) :
  Contractor.isInitialized c = true ->
  fst (Contractor.extend c) = true /\
  fst (Contractor.retract (snd (Contractor.extend c))) = true /\
  Contractor.getPosition (snd (Contractor.retract (snd (Contractor.extend c)))) = 0 /\
  Contractor.getState (snd (Contractor.retract (snd (Contractor.extend c))))
    = Contractor.RETRACTED.
Proof.
  destruct c as [st pos mx ini nm sp]. cbn. intros ->.
  unfold Contractor.extend. cbn.
  destruct st; cbn; repeat split.
Qed.

Lemma Contractor_extend_retract_roundtrip_witness :
  Contractor.getPosition
    (snd (Contractor.retract (snd (Contractor.extend errored_actuator)))) = 0.
Proof.
  refine (proj1 (proj2 (proj2
    (Contractor_extend_retract_roundtrip errored_actuator _)))).
  reflexivity.
Defined.

(** What every actuator reached by calls looks like: settled, and the
    position is the one of its settled state. *)
Lemma Contractor_reachable_settled (c : Contractor.t) :
  Contractor.reachable c ->
  Contractor.currentState c = Contractor.RETRACTED /\ Contractor.currentPosition c = 0
  \/
  Contractor.currentState c = Contractor.EXTENDED /\ Contractor.currentPosition c = 100.
Proof.
  induction 1 as [nm mx | k c Hc IH].
  - left. split; reflexivity.
  - destruct c as [st pos mx ini nm sp]. cbn in IH.
    destruct k as [ | | | | v]; cbn.
    + left. split; reflexivity.
    + unfold Contractor.extend. cbn.
      destruct ini; cbn; [ | exact IH ].
      destruct IH as [[-> ->] | [-> ->]]; cbn; right; split; reflexivity.
    + unfold Contractor.retract. cbn.
      destruct ini; cbn; [ | exact IH ].
      destruct IH as [[-> ->] | [-> ->]]; cbn; left; split; reflexivity.
    + unfold Contractor.stop. cbn.
      destruct IH as [[-> ->] | [-> ->]]; cbn; [left | right]; split; reflexivity.
    + unfold Contractor.setSpeed.
      destruct ((v <? 1) || (v >? 10)); cbn; exact IH.
Qed.

(** C10. From a constructed actuator no sequence of [initialize], [extend],
    [retract], [stop] and [setSpeed] calls reaches motion state [ERROR]; so
    in every reachable state [isReady()] is the [isInitialized] flag, the
    position is 0 or 100, and it is 100 exactly in state [EXTENDED]. *)
Theorem Contractor_reachable_never_error (c : Contractor.t) :
  Contractor.reachable c ->
  Contractor.getState c <> Contractor.ERROR /\
  Contractor.isReady c = Contractor.isInitialized c /\
  (Contractor.getPosition c = 0 \/ Contractor.getPosition c = 100) /\
  (Contractor.getPosition c = 100 <-> Contractor.getState c = Contractor.EXTENDED).
Proof.
  intros Hc. apply Contractor_reachable_settled in Hc.
  unfold Contractor.getState, Contractor.getPosition, Contractor.isReady.
  destruct Hc as [[-> ->] | [-> ->]]; cbn; rewrite andb_true_r;
    (repeat split); try discriminate; try lia; auto.
Qed.

Lemma Contractor_reachable_never_error_witness :
  Contractor.isReady
    (Contractor.exec Contractor.CallExtend
       (Contractor.exec Contractor.CallInitialize
          (Contractor.new "DoorActuator_D1" 250))) = true.
Proof.
  refine (proj1 (proj2 (Contractor_reachable_never_error _ _))).
  apply Contractor.reach_call, Contractor.reach_call, Contractor.reach_new.
Defined.

(** ** Door controller: the two phases are closed under every call *)

Lemma door_phase_new (id : string) : door_phase (SmartDoor.new id).
Proof.
  range_ok. left.
  unfold before_init, INT_MAX. cbn. repeat split; try discriminate; lia.
Qed.

(** Before initialization: [initialize()] (directly or through [reset()] on
    a door that still reports [CLOSED_LOCKED]) enters the second phase; every
    other call leaves the hardware as constructed. *)
Lemma door_phase_before_exec (k : SmartDoor.Call) (d : SmartDoor.t) :
  servo_default_range (SmartDoor.lockServo d) -> before_init d ->
  SmartDoor.defined k d -> door_phase (SmartDoor.exec k d).
Proof.
  destruct d as [[ang mn mxa cal snm] [ast pos mxe ini anm sp] st rdy id oa].
  unfold door_phase, servo_default_range, before_init, after_init. cbn.
  intros [-> ->] (-> & -> & -> & -> & -> & -> & Hst1 & Hst2 & Hst3 & Hoa) Hdef.
  destruct k; cbn.
  - range_ok. right. repeat split. left. repeat split. now left.
  - unfold SmartDoor.open. cbn.
    destruct Hdef as [Hdef | Hdef]; [discriminate | ]. cbn in Hdef.
    rewrite int_incr_no_overflow by (unfold INT_MIN, INT_MAX in *; lia).
    destruct (oa + 1 >=? SmartDoor.MAX_ATTEMPTS); cbn; range_ok; left;
      repeat split; try discriminate; try assumption;
      unfold INT_MAX in *; lia.
  - range_ok. left. repeat split; assumption || apply Hoa.
  - range_ok. left. repeat split; try discriminate; apply Hoa.
  - unfold SmartDoor.reset. cbn.
    destruct st; cbn; range_ok;
      try (left; repeat split; (assumption || apply Hoa || discriminate)).
    right. repeat split. left. repeat split. now left.
Qed.

(** After initialization every call is safe to run and lands in one of the
    three settled configurations again. *)
Lemma door_phase_after_exec (k : SmartDoor.Call) (d : SmartDoor.t) :
  servo_default_range (SmartDoor.lockServo d) -> after_init d ->
  door_phase (SmartDoor.exec k d).
Proof.
  destruct d as [[ang mn mxa cal snm] [ast pos mxe ini anm sp] st rdy id oa].
  unfold door_phase, servo_default_range, after_init. cbn.
  intros [-> ->]
    (-> & -> & -> & -> & [([-> | ->] & -> & -> & ->) | (-> & -> & -> & ->)]);
    destruct k; cbn; range_ok; right; repeat split;
    solve [ left; repeat split; (now left) || (now right)
          | right; repeat split ].
Qed.

Lemma reachable_door_phase (d : SmartDoor.t) :
  SmartDoor.reachable d -> door_phase d.
Proof.
  induction 1 as [id | k d Hd [Hrange [Hb | Ha]] Hdef].
  - apply door_phase_new.
  - now apply door_phase_before_exec.
  - now apply door_phase_after_exec.
Qed.

Lemma before_init_unsafe (d : SmartDoor.t) :
  before_init d -> SmartDoor.isSafeToOperate d = false.
Proof.
  intros (Hr & _). unfold SmartDoor.isSafeToOperate. now rewrite Hr.
Qed.

Lemma after_init_safe (d : SmartDoor.t) :
  after_init d -> SmartDoor.isSafeToOperate d = true.
Proof.
  destruct d as [[ang mn mxa cal snm] [ast pos mxe ini anm sp] st rdy id oa].
  unfold after_init. cbn.
  intros (-> & -> & -> & _ & [([-> | ->] & _ & -> & _) | (-> & _ & -> & _)]);
    reflexivity.
Qed.

(** A failed safety check changes the counter and possibly the door state,
    nothing else; in particular the controller stays unsafe. *)
Lemma open_unsafe_stays_unsafe (d : SmartDoor.t) :
  SmartDoor.isSafeToOperate d = false ->
  SmartDoor.isSafeToOperate (snd (SmartDoor.open d)) = false.
Proof.
  destruct d as [sv ac st rdy id oa].
  unfold SmartDoor.open. intros Hu. rewrite Hu. cbn.
  destruct (int_incr oa >=? SmartDoor.MAX_ATTEMPTS); cbn.
  - unfold SmartDoor.isSafeToOperate. cbn. now destruct rdy.
  - exact Hu.
Qed.

(** What one failed safety check does, for any controller record. *)
Lemma open_unsafe_step (d : SmartDoor.t) :
  SmartDoor.isSafeToOperate d = false ->
  INT_MIN <= SmartDoor.openAttempts d < INT_MAX ->
  fst (SmartDoor.open d) = false /\
  SmartDoor.openAttempts (snd (SmartDoor.open d)) = SmartDoor.openAttempts d + 1 /\
  (3 <= SmartDoor.openAttempts d + 1 ->
     SmartDoor.currentState (snd (SmartDoor.open d)) = SmartDoor.ERROR_STATE) /\
  (SmartDoor.openAttempts d + 1 < 3 ->
     SmartDoor.currentState (snd (SmartDoor.open d)) = SmartDoor.currentState d) /\
  SmartDoor.lockServo (snd (SmartDoor.open d)) = SmartDoor.lockServo d /\
  SmartDoor.doorActuator (snd (SmartDoor.open d)) = SmartDoor.doorActuator d.
Proof.
  destruct d as [sv ac st rdy id oa]. cbn [SmartDoor.openAttempts].
  intros Hu Hoa. unfold SmartDoor.open. rewrite Hu. cbn.
  rewrite (int_incr_no_overflow oa Hoa). unfold SmartDoor.MAX_ATTEMPTS.
  destruct (oa + 1 >=? 3) eqn:E; cbn; repeat split; intros; try reflexivity.
  - apply Z.geb_le in E. lia.
  - rewrite Z.geb_leb in E. apply Z.leb_gt in E. lia.
Qed.

Lemma open_unsafe_fails (d : SmartDoor.t) :
  SmartDoor.isSafeToOperate d = false -> fst (SmartDoor.open d) = false.
Proof. intros Hu. unfold SmartDoor.open. now rewrite Hu. Qed.

(** How a call can change the counter, for any controller record: not at
    all, back to 0, or -- a failed safety check in [open()] -- by [++]. *)
Lemma exec_openAttempts_cases (k : SmartDoor.Call) (d : SmartDoor.t) :
  SmartDoor.openAttempts (SmartDoor.exec k d) = SmartDoor.openAttempts d \/
  SmartDoor.openAttempts (SmartDoor.exec k d) = 0 \/
  k = SmartDoor.CallOpen /\ SmartDoor.isSafeToOperate d = false.
Proof.
  destruct d as [[ang mn mxa cal snm] [ast pos mxe ini anm sp] st rdy id oa].
  destruct k; cbn;
    unfold SmartDoor.reset, SmartDoor.open, SmartDoor.close, SmartDoor.emergencyStop,
      SmartDoor.initialize, SmartDoor.lockDoor, SmartDoor.unlockDoor,
      Servo.setAngle, Contractor.extend, Contractor.retract; cbn;
    repeat match goal with
           | |- context [if ?b then _ else _] => destruct b eqn:?; cbn
           end;
    auto.
  all: right; right; split; [reflexivity | now apply negb_true_iff].
Qed.

(** C1. For every controller reached by public calls: an [open()] that fails
    the [isSafeToOperate()] check returns false, increments [openAttempts]
    and, with the counter then at 3 or more, sets the door state to
    [ERROR_STATE] (below 3 the door state is kept); three consecutive
    [open()] calls on an unsafe controller all fail and end in
    [ERROR_STATE]; a call that makes [openAttempts] larger is an [open()]
    on an unsafe controller; and after an [open()] that returns true the
    counter is 0.  The increments are those with a defined result in C++,
    that is, below [INT_MAX]. *)
Theorem SmartDoor_openAttempts_escalation (d : SmartDoor.t) :
  SmartDoor.reachable d ->
  (SmartDoor.isSafeToOperate d = false ->
   SmartDoor.openAttempts d < INT_MAX ->
     fst (SmartDoor.open d) = false /\
     SmartDoor.openAttempts (snd (SmartDoor.open d))
       = SmartDoor.openAttempts d + 1 /\
     (3 <= SmartDoor.openAttempts (snd (SmartDoor.open d)) ->
        SmartDoor.getState (snd (SmartDoor.open d)) = SmartDoor.ERROR_STATE) /\
     (SmartDoor.openAttempts (snd (SmartDoor.open d)) < 3 ->
        SmartDoor.getState (snd (SmartDoor.open d)) = SmartDoor.getState d)) /\
  (SmartDoor.isSafeToOperate d = false ->
   SmartDoor.openAttempts d + 3 <= INT_MAX ->
     let r1 := SmartDoor.open d in
     let r2 := SmartDoor.open (snd r1) in
     let r3 := SmartDoor.open (snd r2) in
     fst r1 = false /\ fst r2 = false /\ fst r3 = false /\
     SmartDoor.getState (snd r3) = SmartDoor.ERROR_STATE) /\
  (forall k : SmartDoor.Call,
     SmartDoor.openAttempts d < SmartDoor.openAttempts (SmartDoor.exec k d) ->
     k = SmartDoor.CallOpen /\ SmartDoor.isSafeToOperate d = false) /\
  (fst (SmartDoor.open d) = true ->
     SmartDoor.openAttempts (snd (SmartDoor.open d)) = 0).
Proof.
  intros Hd. apply reachable_door_phase in Hd. destruct Hd as [Hrange Hphase].
  assert (Hnn : 0 <= SmartDoor.openAttempts d <= INT_MAX).
  { destruct Hphase as [Hb | Ha].
    - apply Hb.
    - destruct Ha as (_ & _ & _ & -> & _). unfold INT_MAX. lia. }
  split; [ | split; [ | split ] ].
  - intros Hu Hlt.
    destruct (open_unsafe_step d Hu) as (H1 & H2 & H3 & H4 & _).
    { unfold INT_MIN. lia. }
    unfold SmartDoor.getState. rewrite H2. auto.
  - intros Hu Hlt r1 r2 r3.
    assert (Hu1 := open_unsafe_stays_unsafe d Hu). fold r1 in Hu1.
    assert (Hu2 := open_unsafe_stays_unsafe (snd r1) Hu1). fold r2 in Hu2.
    destruct (open_unsafe_step d Hu) as (F1 & A1 & _).
    { unfold INT_MIN, INT_MAX in *. lia. }
    fold r1 in F1, A1.
    destruct (open_unsafe_step (snd r1) Hu1) as (F2 & A2 & _).
    { unfold INT_MIN, INT_MAX in *. lia. }
    fold r2 in F2, A2.
    destruct (open_unsafe_step (snd r2) Hu2) as (F3 & A3 & E3 & _).
    { unfold INT_MIN, INT_MAX in *. lia. }
    fold r3 in F3, A3, E3.
    repeat split; try assumption. apply E3. lia.
  - intros k Hk.
    destruct (exec_openAttempts_cases k d) as [E | [E | E]];
      [rewrite E in Hk; lia .. | exact E].
  - intros Hok. destruct Hphase as [Hb | Ha].
    + apply before_init_unsafe, open_unsafe_fails in Hb. congruence.
    + assert (H0 : SmartDoor.openAttempts d = 0) by apply Ha.
      destruct (exec_openAttempts_cases SmartDoor.CallOpen d) as [E | [E | [_ E]]].
      * cbn in E. congruence.
      * exact E.
      * apply open_unsafe_fails in E. congruence.
Qed.

Lemma SmartDoor_openAttempts_escalation_witness :
  SmartDoor.getState
    (snd (SmartDoor.open (snd (SmartDoor.open (snd (SmartDoor.open
       (SmartDoor.new "D1"))))))) = SmartDoor.ERROR_STATE /\
  SmartDoor.openAttempts
    (snd (SmartDoor.open (snd (SmartDoor.initialize (SmartDoor.new "D1"))))) = 0.
Proof.
  split.
  - refine (proj2 (proj2 (proj2 (proj1 (proj2
      (SmartDoor_openAttempts_escalation (SmartDoor.new "D1")
         (SmartDoor.reach_new "D1"))) _ _)))).
    + reflexivity.
    + unfold INT_MAX. cbn. lia.
  - refine (proj2 (proj2 (proj2
      (SmartDoor_openAttempts_escalation
         (SmartDoor.exec SmartDoor.CallInitialize (SmartDoor.new "D1"))
         (SmartDoor.reach_call SmartDoor.CallInitialize _
            (SmartDoor.reach_new "D1") I)))) _).
    reflexivity.
Defined.

(** The constructor reports [CLOSED_LOCKED] while the servo is created at
    its mid angle 90: before [initialize()] has run the door state and the
    lock angle disagree. *)
Lemma SmartDoor_new_not_consistent :
  SmartDoor.reachable (SmartDoor.new "D1") /\
  SmartDoor.getState (SmartDoor.new "D1") = SmartDoor.CLOSED_LOCKED /\
  Servo.getAngle (SmartDoor.lockServo (SmartDoor.new "D1")) = 90 /\
  ~ door_consistent (SmartDoor.new "D1").
Proof.
  split; [apply SmartDoor.reach_new | ].
  split; [reflexivity | ]. split; [reflexivity | ].
  intros [Hlocked _]. destruct (Hlocked eq_refl) as [Hangle _].
  cbn in Hangle. discriminate Hangle.
Qed.

(** C2 (amended). In every state reached from a constructed controller by
    public calls: [OPEN] implies lock angle 90 and actuator position 100;
    [CLOSED_LOCKED] implies actuator position 0 and, once the system is
    ready, lock angle 0.  A [CLOSED_LOCKED] controller that is not ready
    yet has its servo at the construction angle 90. *)
Theorem SmartDoor_reachable_consistent (d : SmartDoor.t) :
  SmartDoor.reachable d ->
  door_consistent_once_ready d /\
  (SmartDoor.isSystemReady d = true -> door_consistent d) /\
  (SmartDoor.isSystemReady d = false ->
   SmartDoor.getState d = SmartDoor.CLOSED_LOCKED ->
     Servo.getAngle (SmartDoor.lockServo d) = 90).
Proof.
  intros Hd. apply reachable_door_phase in Hd. destruct Hd as [_ [Hb | Ha]].
  - destruct Hb as (Hr & Hang & _ & _ & _ & Hpos & Hno & _).
    unfold door_consistent_once_ready, door_consistent,
      Servo.getAngle, Contractor.getPosition, SmartDoor.getState.
    rewrite Hr, Hang, Hpos.
    repeat split; intros; congruence.
  - destruct Ha as (Hr & _ & _ & _ & [(Hst & Hang & _ & Hpos) | (Hst & Hang & _ & Hpos)]);
      unfold door_consistent_once_ready, door_consistent,
        Servo.getAngle, Contractor.getPosition, SmartDoor.getState;
      rewrite Hr, Hang, Hpos;
      repeat split; intros; try reflexivity; try congruence;
      destruct Hst; congruence.
Qed.

Lemma SmartDoor_reachable_consistent_witness :
  door_consistent_once_ready
    (SmartDoor.exec SmartDoor.CallOpen
       (SmartDoor.exec SmartDoor.CallInitialize (SmartDoor.new "D1"))).
Proof.
  refine (proj1 (SmartDoor_reachable_consistent _ _)).
  apply SmartDoor.reach_call;
    [ apply SmartDoor.reach_call; [ apply SmartDoor.reach_new | exact I ]
    | left; reflexivity ].
Defined.

(** ** Door controller: single calls *)

Lemma Servo_setAngle_default_range (s : Servo.t) (a : Z) :
  servo_default_range s -> 0 <= a <= 180 ->
  Servo.setAngle a s = (true, Servo.set_currentAngle a s).
Proof.
  intros [Hmin Hmax] Ha. unfold Servo.setAngle. rewrite Hmin, Hmax.
  assert (Hl : (a <? 0) = false) by (apply Z.ltb_ge; lia).
  assert (Hh : (a >? 180) = false) by (rewrite Z.gtb_ltb; apply Z.ltb_ge; lia).
  now rewrite Hl, Hh.
Qed.

Lemma Contractor_extend_fails_iff (c : Contractor.t) :
  fst (Contractor.extend c) = false <-> Contractor.isInitialized c = false.
Proof.
  unfold Contractor.extend.
  destruct (Contractor.isInitialized c); cbn;
    [destruct (Contractor.State_eqb _ _) | ]; cbn; split; congruence.
Qed.

Lemma Contractor_retract_fails_iff (c : Contractor.t) :
  fst (Contractor.retract c) = false <-> Contractor.isInitialized c = false.
Proof.
  unfold Contractor.retract.
  destruct (Contractor.isInitialized c); cbn;
    [destruct (Contractor.State_eqb _ _) | ]; cbn; split; congruence.
Qed.

Lemma safe_unfold (d : SmartDoor.t) :
  SmartDoor.isSafeToOperate d = true ->
  SmartDoor.isSystemReady d = true /\
  SmartDoor.currentState d <> SmartDoor.ERROR_STATE /\
  Servo.isCalibrated (SmartDoor.lockServo d) = true /\
  Contractor.isInitialized (SmartDoor.doorActuator d) = true /\
  Contractor.currentState (SmartDoor.doorActuator d) <> Contractor.ERROR.
Proof.
  unfold SmartDoor.isSafeToOperate, Servo.isCalibratedStatus, Contractor.isReady.
  destruct (SmartDoor.isSystemReady d); [ | discriminate ].
  destruct (SmartDoor.currentState d); try discriminate;
    (destruct (Servo.isCalibrated (SmartDoor.lockServo d)); [ | discriminate ]);
    (destruct (Contractor.isInitialized (SmartDoor.doorActuator d)); [ | discriminate ]);
    (destruct (Contractor.currentState (SmartDoor.doorActuator d)); [ .. | discriminate ]);
    intros _; repeat split; discriminate.
Qed.

(** C3. For every controller state on which [isSafeToOperate()] holds (the
    servo having the range [0,180] every constructed servo has), [open()]
    and [close()] return true and do not end in [ERROR_STATE]: they end in
    [OPEN] and [CLOSED_LOCKED].  The failure branches cannot be taken:
    [setAngle(0)] and [setAngle(90)] succeed on that range, and [extend()] /
    [retract()] fail exactly on an uninitialized actuator, which the safety
    check excludes through [isReady()]. *)
Theorem SmartDoor_safe_open_close_succeed (d : SmartDoor.t) :
  servo_default_range (SmartDoor.lockServo d) ->
  SmartDoor.isSafeToOperate d = true ->
  (fst (SmartDoor.open d) = true /\
   SmartDoor.getState (snd (SmartDoor.open d)) = SmartDoor.OPEN /\
   SmartDoor.getState (snd (SmartDoor.open d)) <> SmartDoor.ERROR_STATE) /\
  (fst (SmartDoor.close d) = true /\
   SmartDoor.getState (snd (SmartDoor.close d)) = SmartDoor.CLOSED_LOCKED /\
   SmartDoor.getState (snd (SmartDoor.close d)) <> SmartDoor.ERROR_STATE) /\
  (forall d' : SmartDoor.t,
     SmartDoor.lockServo d' = SmartDoor.lockServo d ->
     fst (SmartDoor.unlockDoor d') = true /\ fst (SmartDoor.lockDoor d') = true) /\
  Contractor.isReady (SmartDoor.doorActuator d) = true /\
  (forall c : Contractor.t,
     Contractor.isReady c = true ->
     fst (Contractor.extend c) = true /\ fst (Contractor.retract c) = true).
Proof.
  intros Hrange Hsafe.
  destruct (safe_unfold d Hsafe) as (Hrdy & Hst & Hcal & Hini & Hact).
  assert (Hlock : forall d', SmartDoor.lockServo d' = SmartDoor.lockServo d ->
            fst (SmartDoor.unlockDoor d') = true /\
            fst (SmartDoor.lockDoor d') = true).
  { intros d' E. unfold SmartDoor.unlockDoor, SmartDoor.lockDoor. rewrite E.
    rewrite !Servo_setAngle_default_range by (assumption || lia).
    split; reflexivity. }
  assert (Hready : Contractor.isReady (SmartDoor.doorActuator d) = true).
  { unfold Contractor.isReady. rewrite Hini.
    now destruct (Contractor.currentState (SmartDoor.doorActuator d)). }
  assert (Hmove : forall c, Contractor.isReady c = true ->
            fst (Contractor.extend c) = true /\ fst (Contractor.retract c) = true).
  { intros c Hc. unfold Contractor.isReady in Hc.
    apply andb_true_iff in Hc. destruct Hc as [Hc _].
    split.
    - destruct (fst (Contractor.extend c)) eqn:E; [reflexivity | ].
      apply Contractor_extend_fails_iff in E. congruence.
    - destruct (fst (Contractor.retract c)) eqn:E; [reflexivity | ].
      apply Contractor_retract_fails_iff in E. congruence. }
  split; [ | split; [ | split; [exact Hlock | split; [exact Hready | exact Hmove]] ] ];
    clear Hlock Hready Hmove Hsafe;
    destruct d as [[ang mn mxa cal snm] [ast pos mxe ini anm sp] st rdy id oa];
    destruct Hrange as [Hmin Hmax]; cbn in *; subst;
    unfold SmartDoor.getState;
    destruct st; try (exfalso; apply Hst; reflexivity);
    destruct ast; try (exfalso; apply Hact; reflexivity);
    cbn; repeat split; discriminate.
Qed.

Lemma SmartDoor_safe_open_close_succeed_witness :
  fst (SmartDoor.open (snd (SmartDoor.initialize (SmartDoor.new "D1")))) = true /\
  fst (SmartDoor.close mid_opening_door) = true.
Proof.
  split.
  - refine (proj1 (proj1
      (SmartDoor_safe_open_close_succeed
         (snd (SmartDoor.initialize (SmartDoor.new "D1"))) _ _))).
    + split; reflexivity.
    + reflexivity.
  - refine (proj1 (proj1 (proj2
      (SmartDoor_safe_open_close_succeed mid_opening_door _ _)))).
    + split; reflexivity.
    + reflexivity.
Defined.

(** The early return of [open()] on an [OPEN] door does not touch the
    counter.  On a record that is safe, [OPEN] and has a non-zero counter the
    call would return true with the counter kept; [reachable_door_phase]
    shows that no sequence of calls produces such a record. *)
Remark open_already_open_keeps_counter :
  let d := SmartDoor.set_openAttempts 2
             (snd (SmartDoor.open (snd (SmartDoor.initialize (SmartDoor.new "D1"))))) in
  SmartDoor.open d = (true, d) /\ SmartDoor.openAttempts d = 2 /\ ~ door_phase d.
Proof.
  cbn. repeat split.
  intros [_ [Hb | Ha]].
  - destruct Hb as (Hr & _). discriminate Hr.
  - destruct Ha as (_ & _ & _ & Hoa & _). discriminate Hoa.
Qed.

(** C4. On every controller whose door state is [ERROR_STATE], [reset()]
    returns false and leaves the controller exactly as it was: [reset()]
    goes through [close()], and [close()] stops at the safety check, which
    rejects [ERROR_STATE]. *)
Theorem SmartDoor_reset_in_error_fails (d : SmartDoor.t) :
  SmartDoor.getState d = SmartDoor.ERROR_STATE ->
  SmartDoor.isSafeToOperate d = false /\
  SmartDoor.close d = (false, d) /\
  SmartDoor.reset d = (false, d).
Proof.
  unfold SmartDoor.getState. intros Hst.
  assert (Hu : SmartDoor.isSafeToOperate d = false).
  { unfold SmartDoor.isSafeToOperate. rewrite Hst.
    now destruct (SmartDoor.isSystemReady d). }
  assert (Hc : SmartDoor.close d = (false, d)).
  { unfold SmartDoor.close. now rewrite Hu. }
  repeat split; try assumption.
  unfold SmartDoor.reset. rewrite Hst. cbn. now rewrite Hc.
Qed.

Lemma SmartDoor_reset_in_error_fails_witness :
  SmartDoor.reset (SmartDoor.set_currentState SmartDoor.ERROR_STATE mid_opening_door)
    = (false, SmartDoor.set_currentState SmartDoor.ERROR_STATE mid_opening_door).
Proof.
  refine (proj2 (proj2 (SmartDoor_reset_in_error_fails _ _))).
  reflexivity.
Defined.

(** C6. On every controller state [emergencyStop()] runs to completion:
    the actuator becomes what its own [stop()] makes of it, the door state
    becomes [OPEN] when the actuator position exceeds 50 and
    [CLOSED_UNLOCKED] otherwise, never [ERROR_STATE]; the lock servo and the
    remaining fields are untouched.  In particular a controller stopped in
    [OPENING] with the actuator at 60 ends in [OPEN]. *)
Theorem SmartDoor_emergencyStop_midpoint (d : SmartDoor.t) :
  SmartDoor.doorActuator (SmartDoor.emergencyStop d)
    = Contractor.stop (SmartDoor.doorActuator d) /\
  (Contractor.getPosition (SmartDoor.doorActuator d) > 50 ->
     SmartDoor.getState (SmartDoor.emergencyStop d) = SmartDoor.OPEN) /\
  (Contractor.getPosition (SmartDoor.doorActuator d) <= 50 ->
     SmartDoor.getState (SmartDoor.emergencyStop d) = SmartDoor.CLOSED_UNLOCKED) /\
  SmartDoor.getState (SmartDoor.emergencyStop d) <> SmartDoor.ERROR_STATE /\
  SmartDoor.lockServo (SmartDoor.emergencyStop d) = SmartDoor.lockServo d /\
  SmartDoor.isSystemReady (SmartDoor.emergencyStop d) = SmartDoor.isSystemReady d /\
  SmartDoor.openAttempts (SmartDoor.emergencyStop d) = SmartDoor.openAttempts d /\
  SmartDoor.doorId (SmartDoor.emergencyStop d) = SmartDoor.doorId d /\
  (SmartDoor.getState d = SmartDoor.OPENING ->
   Contractor.getPosition (SmartDoor.doorActuator d) = 60 ->
     SmartDoor.getState (SmartDoor.emergencyStop d) = SmartDoor.OPEN).
Proof.
  assert (Hpos : Contractor.getPosition (Contractor.stop (SmartDoor.doorActuator d))
                 = Contractor.getPosition (SmartDoor.doorActuator d)).
  { unfold Contractor.stop.
    now destruct (Contractor.State_eqb _ _ || Contractor.State_eqb _ _). }
  unfold SmartDoor.emergencyStop, SmartDoor.getState.
  cbn [SmartDoor.doorActuator SmartDoor.set_doorActuator]. rewrite Hpos.
  destruct (Contractor.getPosition (SmartDoor.doorActuator d) >? 50) eqn:E; cbn;
    [apply Z.gtb_gt in E | rewrite Z.gtb_ltb in E; apply Z.ltb_ge in E];
    repeat split; intros; try reflexivity; try discriminate; lia.
Qed.

Lemma SmartDoor_emergencyStop_midpoint_witness :
  SmartDoor.getState (SmartDoor.emergencyStop mid_opening_door) = SmartDoor.OPEN.
Proof.
  refine (proj2 (proj2 (proj2 (proj2 (proj2 (proj2 (proj2 (proj2
    (SmartDoor_emergencyStop_midpoint mid_opening_door)))))))) _ _);
    reflexivity.
Defined.

(** C7. For a freshly constructed controller: [initialize()] returns true
    and leaves [CLOSED_LOCKED], system ready, lock angle 0, actuator at 0;
    the following [open()] returns true and leaves [OPEN], lock angle 90,
    actuator at 100; the following [close()] returns true and leaves
    [CLOSED_LOCKED], lock angle 0, actuator at 0. *)
Theorem SmartDoor_initialize_open_close_scenario (id : string) :
  let r1 := SmartDoor.initialize (SmartDoor.new id) in
  let r2 := SmartDoor.open (snd r1) in
  let r3 := SmartDoor.close (snd r2) in
  (fst r1 = true /\
   SmartDoor.getState (snd r1) = SmartDoor.CLOSED_LOCKED /\
   SmartDoor.isSystemReady (snd r1) = true /\
   Servo.getAngle (SmartDoor.lockServo (snd r1)) = 0 /\
   Contractor.getPosition (SmartDoor.doorActuator (snd r1)) = 0) /\
  (fst r2 = true /\
   SmartDoor.getState (snd r2) = SmartDoor.OPEN /\
   Servo.getAngle (SmartDoor.lockServo (snd r2)) = 90 /\
   Contractor.getPosition (SmartDoor.doorActuator (snd r2)) = 100) /\
  (fst r3 = true /\
   SmartDoor.getState (snd r3) = SmartDoor.CLOSED_LOCKED /\
   Servo.getAngle (SmartDoor.lockServo (snd r3)) = 0 /\
   Contractor.getPosition (SmartDoor.doorActuator (snd r3)) = 0).
Proof. cbn. repeat split. Qed.

(** ** Door controller: the shapes between two calls *)

Lemma door_shape_exec (k : SmartDoor.Call) (d : SmartDoor.t) :
  door_shape d -> SmartDoor.defined k d -> door_shape (SmartDoor.exec k d).
Proof.
  intros [id st oa Hst Hoa | id | id | id] Hdef.
  - destruct k; cbn.
    + apply (shape_locked id).
    + destruct Hdef as [Hdef | Hdef]; [discriminate Hdef | ]. cbn in Hdef.
      unfold SmartDoor.open. cbn.
      rewrite int_incr_no_overflow by (unfold INT_MIN, INT_MAX in *; lia).
      unfold SmartDoor.MAX_ATTEMPTS.
      destruct (oa + 1 >=? 3) eqn:E; cbn.
      * apply Z.geb_le in E.
        apply (shape_unready id SmartDoor.ERROR_STATE (oa + 1)).
        -- right. right. split; [reflexivity | exact E].
        -- unfold INT_MAX in *. lia.
      * rewrite Z.geb_leb in E. apply Z.leb_gt in E.
        apply (shape_unready id st (oa + 1)).
        -- destruct Hst as [[-> _] | [-> | [_ H3]]]; [left; split; [reflexivity | lia] | right; left; reflexivity | lia].
        -- unfold INT_MAX in *. lia.
    + apply (shape_unready id st oa); assumption.
    + apply (shape_unready id SmartDoor.CLOSED_UNLOCKED oa); [right; left; reflexivity | assumption].
    + destruct Hst as [[-> Hlt] | [-> | [-> H3]]]; cbn.
      * apply (shape_locked id).
      * apply (shape_unready id SmartDoor.CLOSED_UNLOCKED oa); [right; left; reflexivity | assumption].
      * apply (shape_unready id SmartDoor.ERROR_STATE oa); [right; right; split; [reflexivity | assumption] | assumption].
  - destruct k; cbn; first [apply (shape_locked id) | apply (shape_stopped id) | apply (shape_open id)].
  - destruct k; cbn; first [apply (shape_locked id) | apply (shape_stopped id) | apply (shape_open id)].
  - destruct k; cbn; first [apply (shape_locked id) | apply (shape_stopped id) | apply (shape_open id)].
Qed.

Lemma reachable_door_shape (d : SmartDoor.t) :
  SmartDoor.reachable d -> door_shape d.
Proof.
  induction 1 as [id | k d Hd IH Hdef].
  - apply (shape_unready id SmartDoor.CLOSED_LOCKED 0).
    + left. split; [reflexivity | lia].
    + unfold INT_MAX. lia.
  - now apply door_shape_exec.
Qed.

(** ** Servo: further properties *)

(** X1. Every servo reached from the constructor by [calibrate], [setAngle]
    and [reset] calls still has the range [0,180] and an angle inside it. *)
Theorem Servo_reachable_angle_in_range (s : Servo.t) :
  Servo.reachable s ->
  Servo.minAngle s = 0 /\ Servo.maxAngle s = 180 /\
  0 <= Servo.getAngle s <= 180.
Proof.
  unfold Servo.getAngle.
  induction 1 as [nm | k s Hs (Hmin & Hmax & Hang)].
  - cbn. lia.
  - destruct s as [ang mn mx cal nm]. cbn in Hmin, Hmax, Hang. subst mn mx.
    destruct k as [ | a | ]; cbn; try lia.
    unfold Servo.setAngle. cbn.
    destruct (a <? 0) eqn:El; cbn; [lia | ].
    destruct (a >? 180) eqn:Eh; cbn; [lia | ].
    apply Z.ltb_ge in El. rewrite Z.gtb_ltb in Eh. apply Z.ltb_ge in Eh. lia.
Qed.

Lemma Servo_reachable_angle_in_range_witness :
  0 <= Servo.getAngle
         (Servo.exec (Servo.CallSetAngle 200)
            (Servo.exec (Servo.CallSetAngle 45) (Servo.new "LockServo_D1"))) <= 180.
Proof.
  refine (proj2 (proj2 (Servo_reachable_angle_in_range _ _))).
  apply Servo.reach_call, Servo.reach_call, Servo.reach_new.
Defined.

(** X2. The calibration flag is set by [calibrate()] alone and cleared by
    nothing: after any call the servo is calibrated exactly if the call was
    [calibrate()] or the servo was calibrated before ([reset()] included). *)
Theorem Servo_calibrated_iff_calibrate (k : Servo.Call) (s : Servo.t) :
  Servo.isCalibratedStatus (Servo.exec k s) = true <->
  k = Servo.CallCalibrate \/ Servo.isCalibratedStatus s = true.
Proof.
  unfold Servo.isCalibratedStatus.
  destruct k as [ | a | ]; cbn.
  - split; auto.
  - unfold Servo.setAngle.
    destruct ((a <? Servo.minAngle s) || (a >? Servo.maxAngle s)); cbn;
      split; auto; intros [H | H]; (discriminate H || exact H).
  - split; auto; intros [H | H]; (discriminate H || exact H).
Qed.

Lemma Servo_calibrated_iff_calibrate_witness :
  Servo.isCalibratedStatus
    (Servo.exec Servo.CallReset (snd (Servo.calibrate (Servo.new "LockServo_D1"))))
    = true.
Proof.
  refine (proj2 (Servo_calibrated_iff_calibrate _ _) _).
  right. reflexivity.
Defined.

(** X3. Two [setAngle] calls in a row, the first one in range: the servo
    ends at the second angle when that is in range too, and stays at the
    first one when the second call is rejected. *)
Theorem Servo_setAngle_twice (s : Servo.t) (a b : Z) :
  Servo.minAngle s <= a <= Servo.maxAngle s ->
  (Servo.minAngle s <= b <= Servo.maxAngle s ->
     Servo.setAngle b (snd (Servo.setAngle a s)) = Servo.setAngle b s) /\
  (b < Servo.minAngle s \/ Servo.maxAngle s < b ->
     fst (Servo.setAngle b (snd (Servo.setAngle a s))) = false /\
     Servo.getAngle (snd (Servo.setAngle b (snd (Servo.setAngle a s)))) = a).
Proof.
  destruct s as [ang mn mx cal nm]. cbn. intros Ha.
  unfold Servo.setAngle. cbn.
  assert (Ea : (a <? mn) || (a >? mx) = false).
  { apply orb_false_iff. rewrite Z.gtb_ltb, !Z.ltb_ge. lia. }
  rewrite Ea. cbn. split.
  - intros Hb.
    assert (Eb : (b <? mn) || (b >? mx) = false).
    { apply orb_false_iff. rewrite Z.gtb_ltb, !Z.ltb_ge. lia. }
    rewrite Eb. reflexivity.
  - intros Hb.
    assert (Eb : (b <? mn) || (b >? mx) = true).
    { apply orb_true_iff. rewrite Z.gtb_ltb, !Z.ltb_lt. exact Hb. }
    rewrite Eb. split; reflexivity.
Qed.

Lemma Servo_setAngle_twice_witness :
  Servo.getAngle
    (snd (Servo.setAngle 181 (snd (Servo.setAngle 45 (Servo.new "LockServo_D1")))))
    = 45.
Proof.
  refine (proj2 (proj2 (Servo_setAngle_twice (Servo.new "LockServo_D1") 45 181 _) _)).
  - cbn. lia.
  - right. cbn. lia.
Defined.

(** ** Linear actuator: further properties *)

(** X4. [extend()] and [retract()] succeed exactly on an initialized
    actuator; on an uninitialized one they return false and change
    nothing. *)
Theorem Contractor_moves_need_initialize (c : Contractor.t) :
  fst (Contractor.extend c) = Contractor.isInitialized c /\
  fst (Contractor.retract c) = Contractor.isInitialized c /\
  (Contractor.isInitialized c = false ->
     Contractor.extend c = (false, c) /\ Contractor.retract c = (false, c)).
Proof.
  unfold Contractor.extend, Contractor.retract.
  destruct (Contractor.isInitialized c); cbn.
  - repeat split; try discriminate;
      now destruct (Contractor.State_eqb _ _).
  - repeat split.
Qed.

Lemma Contractor_moves_need_initialize_witness :
  Contractor.extend (Contractor.new "DoorActuator_D1" 250)
    = (false, Contractor.new "DoorActuator_D1" 250).
Proof.
  refine (proj1 (proj2 (proj2
    (Contractor_moves_need_initialize (Contractor.new "DoorActuator_D1" 250))) _)).
  reflexivity.
Defined.

(** X5. [initialize()], [extend()] and [retract()] are idempotent: a second
    call in a row returns what the first returned and leaves the state the
    first call produced. *)
Theorem Contractor_moves_idempotent (c : Contractor.t) :
  Contractor.initialize (snd (Contractor.initialize c)) = Contractor.initialize c /\
  Contractor.extend (snd (Contractor.extend c)) = Contractor.extend c /\
  Contractor.retract (snd (Contractor.retract c)) = Contractor.retract c.
Proof.
  destruct c as [st pos mx ini nm sp].
  unfold Contractor.extend, Contractor.retract. cbn.
  destruct ini, st; cbn; repeat split.
Qed.

(** X6. [stop()] never leaves the actuator in [EXTENDING] or [RETRACTING],
    keeps the position and the answer of [isReady()], and a second [stop()]
    changes nothing. *)
Theorem Contractor_stop_settles (c : Contractor.t) :
  Contractor.getState (Contractor.stop c) <> Contractor.EXTENDING /\
  Contractor.getState (Contractor.stop c) <> Contractor.RETRACTING /\
  Contractor.getPosition (Contractor.stop c) = Contractor.getPosition c /\
  Contractor.isReady (Contractor.stop c) = Contractor.isReady c /\
  Contractor.stop (Contractor.stop c) = Contractor.stop c.
Proof.
  destruct c as [st pos mx ini nm sp].
  unfold Contractor.stop, Contractor.isReady, Contractor.getState. cbn.
  destruct st; cbn; try (repeat split; discriminate);
    destruct (pos >? 50); cbn; repeat split; discriminate.
Qed.

(** X7. Every actuator reached from the constructor by calls has a speed
    between 1 and 10; a rejected [setSpeed] leaves the actuator as it was,
    an accepted one changes the speed only. *)
Theorem Contractor_reachable_speed_in_range (c : Contractor.t) :
  Contractor.reachable c ->
  1 <= Contractor.speed c <= 10 /\
  (forall v : Z,
     (v < 1 \/ 10 < v -> Contractor.setSpeed v c = (false, c)) /\
     (1 <= v <= 10 ->
        Contractor.setSpeed v c = (true, Contractor.set_speed v c))).
Proof.
  intros Hc. split.
  - induction Hc as [nm mx | k c Hc IH].
    + cbn. lia.
    + destruct c as [st pos mx ini nm sp]. cbn in IH.
      destruct k as [ | | | | v]; cbn; try exact IH.
      * unfold Contractor.extend. cbn. destruct ini; cbn; [ | exact IH].
        destruct (Contractor.State_eqb st Contractor.EXTENDED); exact IH.
      * unfold Contractor.retract. cbn. destruct ini; cbn; [ | exact IH].
        destruct (Contractor.State_eqb st Contractor.RETRACTED); exact IH.
      * unfold Contractor.stop. cbn.
        destruct (Contractor.State_eqb st Contractor.EXTENDING
                  || Contractor.State_eqb st Contractor.RETRACTING); exact IH.
      * unfold Contractor.setSpeed.
        destruct (v <? 1) eqn:El; cbn; [exact IH | ].
        destruct (v >? 10) eqn:Eh; cbn; [exact IH | ].
        apply Z.ltb_ge in El. rewrite Z.gtb_ltb in Eh. apply Z.ltb_ge in Eh. lia.
  - intros v. unfold Contractor.setSpeed. split; intros Hv.
    + assert (E : (v <? 1) || (v >? 10) = true).
      { apply orb_true_iff. rewrite Z.gtb_ltb, !Z.ltb_lt. exact Hv. }
      now rewrite E.
    + assert (E : (v <? 1) || (v >? 10) = false).
      { apply orb_false_iff. rewrite Z.gtb_ltb, !Z.ltb_ge. lia. }
      now rewrite E.
Qed.

Lemma Contractor_reachable_speed_in_range_witness :
  1 <= Contractor.speed
         (Contractor.exec (Contractor.CallSetSpeed 11)
            (Contractor.exec (Contractor.CallSetSpeed 10)
               (Contractor.new "DoorActuator_D1" 250))) <= 10.
Proof.
  refine (proj1 (Contractor_reachable_speed_in_range _ _)).
  apply Contractor.reach_call, Contractor.reach_call, Contractor.reach_new.
Defined.

(** X8. On every initialized actuator, [retract()] followed by [extend()]
    both succeed and leave the actuator at position 100 in state
    [EXTENDED]. *)
Theorem Contractor_retract_extend_roundtrip (c : Contractor.t) :
  Contractor.isInitialized c = true ->
  fst (Contractor.retract c) = true /\
  fst (Contractor.extend (snd (Contractor.retract c))) = true /\
  Contractor.getPosition (snd (Contractor.extend (snd (Contractor.retract c)))) = 100 /\
  Contractor.getState (snd (Contractor.extend (snd (Contractor.retract c))))
    = Contractor.EXTENDED.
Proof.
  destruct c as [st pos mx ini nm sp]. cbn. intros ->.
  unfold Contractor.retract. cbn.
  destruct st; cbn; repeat split.
Qed.

Lemma Contractor_retract_extend_roundtrip_witness :
  Contractor.getPosition
    (snd (Contractor.extend (snd (Contractor.retract errored_actuator)))) = 100.
Proof.
  refine (proj1 (proj2 (proj2
    (Contractor_retract_extend_roundtrip errored_actuator _)))).
  reflexivity.
Defined.

(** X9. [getStateString()] names the five motion states with five
    different strings: equal names mean equal states. *)
Theorem Contractor_getStateString_injective (c1 c2 : Contractor.t) :
  Contractor.getStateString c1 = Contractor.getStateString c2 ->
  Contractor.getState c1 = Contractor.getState c2.
Proof.
  unfold Contractor.getStateString, Contractor.getState.
  destruct (Contractor.currentState c1), (Contractor.currentState c2);
    intros H; (reflexivity || discriminate H).
Qed.

Lemma Contractor_getStateString_injective_witness :
  Contractor.getState errored_actuator
    = Contractor.getState (Contractor.set_currentPosition 0 errored_actuator).
Proof.
  refine (Contractor_getStateString_injective _ _ _). reflexivity.
Defined.

(** An actuator that was never initialized has never moved. *)
Lemma Contractor_reachable_home (c : Contractor.t) :
  Contractor.reachable c ->
  Contractor.isInitialized c = true \/
  Contractor.currentState c = Contractor.RETRACTED /\
  Contractor.currentPosition c = 0.
Proof.
  induction 1 as [nm mx | k c Hc IH].
  - right. split; reflexivity.
  - destruct c as [st pos mx ini nm sp]. cbn in IH.
    destruct k as [ | | | | v]; cbn.
    + left. reflexivity.
    + unfold Contractor.extend. cbn. destruct ini; cbn; [ | exact IH].
      left. now destruct (Contractor.State_eqb st Contractor.EXTENDED).
    + unfold Contractor.retract. cbn. destruct ini; cbn; [ | exact IH].
      left. now destruct (Contractor.State_eqb st Contractor.RETRACTED).
    + destruct IH as [IH | [-> ->]]; [left | right; split; reflexivity].
      unfold Contractor.stop. cbn.
      now destruct (Contractor.State_eqb st Contractor.EXTENDING
                    || Contractor.State_eqb st Contractor.RETRACTING).
    + unfold Contractor.setSpeed.
      destruct ((v <? 1) || (v >? 10)); exact IH.
Qed.

(** X10. The destructor leaves every actuator reached by calls retracted at
    position 0.  On an arbitrary record it retracts an initialized actuator
    and cannot move an uninitialized one. *)
Theorem Contractor_destructor_retracts (c : Contractor.t) :
  (Contractor.reachable c ->
     Contractor.getState (Contractor.destructor c) = Contractor.RETRACTED /\
     Contractor.getPosition (Contractor.destructor c) = 0) /\
  (Contractor.isInitialized c = true ->
     Contractor.getState (Contractor.destructor c) = Contractor.RETRACTED) /\
  (Contractor.isInitialized c = false -> Contractor.destructor c = c).
Proof.
  split; [ | split ].
  - intros Hc.
    destruct (Contractor_reachable_home c Hc) as [Hi | [Hst Hpos]];
      destruct (Contractor_reachable_settled c Hc) as [[Hs Hp] | [Hs Hp]];
      destruct c as [st pos mx ini nm sp]; cbn in *; subst;
      try discriminate; split; reflexivity.
  - destruct c as [st pos mx ini nm sp]. cbn. intros ->.
    unfold Contractor.destructor, Contractor.retract, Contractor.getState. cbn.
    now destruct st.
  - destruct c as [st pos mx ini nm sp]. cbn. intros ->.
    unfold Contractor.destructor, Contractor.retract. cbn.
    now destruct st.
Qed.

Lemma Contractor_destructor_retracts_witness :
  Contractor.getPosition
    (Contractor.destructor
       (Contractor.exec Contractor.CallExtend
          (Contractor.exec Contractor.CallInitialize
             (Contractor.new "DoorActuator_D1" 250)))) = 0.
Proof.
  refine (proj2 (proj1 (Contractor_destructor_retracts _) _)).
  apply Contractor.reach_call, Contractor.reach_call, Contractor.reach_new.
Defined.

(** ** Door controller: further properties *)

Ltac by_shape H :=
  apply reachable_door_shape in H;
  destruct H as [id st oa Hst Hoa | id | id | id].

(** X11. On a controller whose servo has the range [0,180], [initialize()]
    succeeds from any state, [ERROR_STATE] included: it returns true and
    leaves the door [CLOSED_LOCKED], ready and safe to operate, the counter
    at 0, the lock calibrated at angle 0 and the actuator initialized,
    retracted at position 0. *)
Theorem SmartDoor_initialize_recovers (d : SmartDoor.t) :
  servo_default_range (SmartDoor.lockServo d) ->
  fst (SmartDoor.initialize d) = true /\
  SmartDoor.getState (snd (SmartDoor.initialize d)) = SmartDoor.CLOSED_LOCKED /\
  SmartDoor.isReady (snd (SmartDoor.initialize d)) = true /\
  SmartDoor.isSafeToOperate (snd (SmartDoor.initialize d)) = true /\
  SmartDoor.openAttempts (snd (SmartDoor.initialize d)) = 0 /\
  Servo.getAngle (SmartDoor.lockServo (snd (SmartDoor.initialize d))) = 0 /\
  Servo.isCalibratedStatus (SmartDoor.lockServo (snd (SmartDoor.initialize d))) = true /\
  Contractor.getState (SmartDoor.doorActuator (snd (SmartDoor.initialize d)))
    = Contractor.RETRACTED /\
  Contractor.getPosition (SmartDoor.doorActuator (snd (SmartDoor.initialize d))) = 0 /\
  Contractor.isReady (SmartDoor.doorActuator (snd (SmartDoor.initialize d))) = true.
Proof.
  destruct d as [[ang mn mxa cal snm] [ast pos mxe ini anm sp] st rdy id oa].
  intros [Hmin Hmax]. cbn in Hmin, Hmax. subst mn mxa.
  cbn. repeat split.
Qed.

Lemma SmartDoor_initialize_recovers_witness :
  SmartDoor.getState
    (snd (SmartDoor.initialize
            (SmartDoor.set_currentState SmartDoor.ERROR_STATE mid_opening_door)))
    = SmartDoor.CLOSED_LOCKED.
Proof.
  refine (proj1 (proj2 (SmartDoor_initialize_recovers _ _))).
  split; reflexivity.
Defined.

(** X12. [initialize()] is idempotent on every controller record: a second
    call in a row returns what the first returned and leaves the state the
    first call produced. *)
Theorem SmartDoor_initialize_idempotent (d : SmartDoor.t) :
  SmartDoor.initialize (snd (SmartDoor.initialize d)) = SmartDoor.initialize d.
Proof.
  destruct d as [[ang mn mxa cal snm] [ast pos mxe ini anm sp] st rdy id oa].
  unfold SmartDoor.initialize, SmartDoor.lockDoor, Servo.setAngle. cbn.
  destruct ((0 <? mn) || (0 >? mxa)) eqn:E; cbn; rewrite E; reflexivity.
Qed.

(** X13. Between two public calls the door state is never [OPENING] or
    [CLOSING]: both are set and overwritten within one call. *)
Theorem SmartDoor_reachable_never_transient (d : SmartDoor.t) :
  SmartDoor.reachable d ->
  SmartDoor.getState d <> SmartDoor.OPENING /\
  SmartDoor.getState d <> SmartDoor.CLOSING.
Proof.
  intros Hd. by_shape Hd; cbn; try (split; discriminate).
  destruct Hst as [[-> _] | [-> | [-> _]]]; split; discriminate.
Qed.

Lemma SmartDoor_reachable_never_transient_witness :
  SmartDoor.getState
    (SmartDoor.exec SmartDoor.CallEmergencyStop (SmartDoor.new "D1"))
    <> SmartDoor.OPENING.
Proof.
  refine (proj1 (SmartDoor_reachable_never_transient _ _)).
  apply SmartDoor.reach_call; [apply SmartDoor.reach_new | exact I].
Defined.

(** X14. On every reachable controller the public [isReady()] agrees with
    the private safety check, and [open()] and [close()] return exactly
    that value. *)
Theorem SmartDoor_isReady_decides_open_close (d : SmartDoor.t) :
  SmartDoor.reachable d ->
  SmartDoor.isSafeToOperate d = SmartDoor.isReady d /\
  fst (SmartDoor.open d) = SmartDoor.isReady d /\
  fst (SmartDoor.close d) = SmartDoor.isReady d.
Proof.
  intros Hd. by_shape Hd; cbn; repeat split.
Qed.

Lemma SmartDoor_isReady_decides_open_close_witness :
  fst (SmartDoor.close (SmartDoor.new "D1")) = false.
Proof.
  refine (proj2 (proj2 (SmartDoor_isReady_decides_open_close _ _))).
  apply SmartDoor.reach_new.
Defined.

(** X15. On a reachable controller [reset()] succeeds exactly if the system
    is ready or the door state is [CLOSED_LOCKED]; a successful [reset()]
    leaves what [initialize()] would leave, a failed one changes nothing. *)
Theorem SmartDoor_reset_succeeds_iff (d : SmartDoor.t) :
  SmartDoor.reachable d ->
  (fst (SmartDoor.reset d) = true <->
     SmartDoor.isSystemReady d = true \/
     SmartDoor.getState d = SmartDoor.CLOSED_LOCKED) /\
  (fst (SmartDoor.reset d) = true ->
     SmartDoor.reset d = SmartDoor.initialize d) /\
  (fst (SmartDoor.reset d) = false -> SmartDoor.reset d = (false, d)).
Proof.
  intros Hd. by_shape Hd.
  - destruct Hst as [[-> _] | [-> | [-> _]]]; cbn;
      repeat split; auto; try discriminate;
      intros [H | H]; discriminate H.
  - cbn. repeat split; auto; discriminate.
  - cbn. repeat split; auto; discriminate.
  - cbn. repeat split; auto; discriminate.
Qed.

Lemma SmartDoor_reset_succeeds_iff_witness :
  fst (SmartDoor.reset (SmartDoor.new "D1")) = true.
Proof.
  refine (proj2 (proj1 (SmartDoor_reset_succeeds_iff _ _)) _).
  - apply SmartDoor.reach_new.
  - right. reflexivity.
Defined.

(** X16. A reachable controller is in [ERROR_STATE] only through the
    attempt counter: it is then not ready, has counted at least 3 failed
    [open()] calls, and neither device has moved since construction. *)
Theorem SmartDoor_error_state_only_by_attempts (d : SmartDoor.t) :
  SmartDoor.reachable d ->
  SmartDoor.getState d = SmartDoor.ERROR_STATE ->
  SmartDoor.isSystemReady d = false /\
  3 <= SmartDoor.openAttempts d /\
  SmartDoor.lockServo d = Servo.new ("LockServo_" ++ SmartDoor.getDoorId d) /\
  SmartDoor.doorActuator d
    = Contractor.new ("DoorActuator_" ++ SmartDoor.getDoorId d) 250.
Proof.
  intros Hd. by_shape Hd; cbn; try discriminate.
  intros ->. destruct Hst as [[H _] | [H | [_ H]]]; try discriminate H.
  repeat split. exact H.
Qed.

Lemma SmartDoor_error_state_only_by_attempts_witness :
  3 <= SmartDoor.openAttempts
         (SmartDoor.exec SmartDoor.CallOpen
            (SmartDoor.exec SmartDoor.CallOpen
               (SmartDoor.exec SmartDoor.CallOpen (SmartDoor.new "D1")))).
Proof.
  refine (proj1 (proj2 (SmartDoor_error_state_only_by_attempts _ _ _))).
  - repeat (apply SmartDoor.reach_call;
            [ | right; unfold INT_MAX; cbn; lia ]).
    apply SmartDoor.reach_new.
  - reflexivity.
Defined.

(** X17. On a controller that is safe to operate (servo range [0,180]) a
    second [open()] right after the first, and a second [close()] right
    after the first, return true and change nothing. *)
Theorem SmartDoor_open_close_idempotent (d : SmartDoor.t) :
  servo_default_range (SmartDoor.lockServo d) ->
  SmartDoor.isSafeToOperate d = true ->
  SmartDoor.open (snd (SmartDoor.open d)) = (true, snd (SmartDoor.open d)) /\
  SmartDoor.close (snd (SmartDoor.close d)) = (true, snd (SmartDoor.close d)).
Proof.
  intros Hrange Hsafe.
  destruct (safe_unfold d Hsafe) as (Hrdy & Hst & Hcal & Hini & Hact).
  clear Hsafe.
  destruct d as [[ang mn mxa cal snm] [ast pos mxe ini anm sp] st rdy id oa].
  destruct Hrange as [Hmin Hmax]. cbn in *. subst.
  destruct st; try (exfalso; apply Hst; reflexivity);
    destruct ast; try (exfalso; apply Hact; reflexivity);
    cbn; split; reflexivity.
Qed.

Lemma SmartDoor_open_close_idempotent_witness :
  SmartDoor.open (snd (SmartDoor.open mid_opening_door))
    = (true, snd (SmartDoor.open mid_opening_door)).
Proof.
  refine (proj1 (SmartDoor_open_close_idempotent mid_opening_door _ _)).
  - split; reflexivity.
  - reflexivity.
Defined.

(** X18. [close()] never escalates: on every controller record it leaves
    the attempt counter, the ready flag and the door id as they were, and on
    an unsafe controller it returns false and changes nothing at all, however
    often it is called. *)
Theorem SmartDoor_close_never_counts (d : SmartDoor.t) :
  SmartDoor.openAttempts (snd (SmartDoor.close d)) = SmartDoor.openAttempts d /\
  SmartDoor.isSystemReady (snd (SmartDoor.close d)) = SmartDoor.isSystemReady d /\
  SmartDoor.getDoorId (snd (SmartDoor.close d)) = SmartDoor.getDoorId d /\
  (SmartDoor.isSafeToOperate d = false ->
     SmartDoor.close d = (false, d) /\
     SmartDoor.close (snd (SmartDoor.close d)) = (false, d)).
Proof.
  assert (Hfields :
    SmartDoor.openAttempts (snd (SmartDoor.close d)) = SmartDoor.openAttempts d /\
    SmartDoor.isSystemReady (snd (SmartDoor.close d)) = SmartDoor.isSystemReady d /\
    SmartDoor.getDoorId (snd (SmartDoor.close d)) = SmartDoor.getDoorId d).
  { unfold SmartDoor.close, SmartDoor.lockDoor, SmartDoor.getDoorId.
    destruct (negb (SmartDoor.isSafeToOperate d)); [repeat split | ].
    destruct (SmartDoor.DoorState_eqb _ _); [repeat split | ]. cbn.
    destruct (Contractor.retract (SmartDoor.doorActuator d)) as [ok c]. cbn.
    destruct ok; cbn; [ | repeat split].
    destruct (Servo.setAngle 0 (SmartDoor.lockServo d)) as [ok' sv]. cbn.
    destruct ok'; cbn; repeat split. }
  destruct Hfields as (H1 & H2 & H3).
  split; [exact H1 | split; [exact H2 | split; [exact H3 | ] ] ].
  intros Hu. unfold SmartDoor.close. rewrite Hu. cbn. rewrite Hu.
  split; reflexivity.
Qed.

Lemma SmartDoor_close_never_counts_witness :
  SmartDoor.close (SmartDoor.new "D1") = (false, SmartDoor.new "D1").
Proof.
  refine (proj1 (proj2 (proj2 (proj2
    (SmartDoor_close_never_counts (SmartDoor.new "D1")))) _)).
  reflexivity.
Defined.

(** X19. [emergencyStop()] is idempotent on every controller record, and
    afterwards [isReady()] is the ready flag: an [ERROR_STATE] is
    overwritten. *)
Theorem SmartDoor_emergencyStop_idempotent (d : SmartDoor.t) :
  SmartDoor.emergencyStop (SmartDoor.emergencyStop d) = SmartDoor.emergencyStop d /\
  SmartDoor.isReady (SmartDoor.emergencyStop d) = SmartDoor.isSystemReady d.
Proof.
  destruct d as [sv [ast pos mxe ini anm sp] st rdy id oa].
  unfold SmartDoor.emergencyStop, SmartDoor.isReady, Contractor.stop. cbn.
  destruct ast; cbn; destruct (pos >? 50) eqn:E; cbn; rewrite ?E; cbn;
    rewrite ?E; cbn; rewrite ?andb_true_r; split; reflexivity.
Qed.

(** X20. On a reachable controller [emergencyStop()] moves nothing: servo,
    actuator, ready flag and counter stay as they are and only the door
    state changes, [OPEN] staying [OPEN] and every other state becoming
    [CLOSED_UNLOCKED] -- also for a locked door, whose lock angle stays 0. *)
Theorem SmartDoor_emergencyStop_reachable (d : SmartDoor.t) :
  SmartDoor.reachable d ->
  SmartDoor.emergencyStop d
    = SmartDoor.set_currentState
        (if SmartDoor.DoorState_eqb (SmartDoor.getState d) SmartDoor.OPEN
         then SmartDoor.OPEN else SmartDoor.CLOSED_UNLOCKED) d /\
  (SmartDoor.isSystemReady d = true ->
   SmartDoor.getState d = SmartDoor.CLOSED_LOCKED ->
     SmartDoor.getState (SmartDoor.emergencyStop d) = SmartDoor.CLOSED_UNLOCKED /\
     Servo.getAngle (SmartDoor.lockServo (SmartDoor.emergencyStop d)) = 0).
Proof.
  intros Hd. by_shape Hd.
  - destruct Hst as [[-> _] | [-> | [-> _]]]; cbn; split;
      (reflexivity || discriminate).
  - cbn. split; [reflexivity | split; reflexivity].
  - cbn. split; [reflexivity | discriminate].
  - cbn. split; [reflexivity | discriminate].
Qed.

Lemma SmartDoor_emergencyStop_reachable_witness :
  SmartDoor.getState
    (SmartDoor.emergencyStop
       (SmartDoor.exec SmartDoor.CallInitialize (SmartDoor.new "D1")))
    = SmartDoor.CLOSED_UNLOCKED.
Proof.
  refine (proj1 (proj2 (SmartDoor_emergencyStop_reachable _ _) _ _)).
  - apply SmartDoor.reach_call; [apply SmartDoor.reach_new | exact I].
  - reflexivity.
  - reflexivity.
Defined.

(** X21. The destructor of a reachable controller leaves the actuator
    retracted at position 0; when the system is ready it also leaves the
    door [CLOSED_LOCKED] with the lock at angle 0, and when it is not ready
    it moves nothing. *)
Theorem SmartDoor_destructor_closes (d : SmartDoor.t) :
  SmartDoor.reachable d ->
  Contractor.getState (SmartDoor.doorActuator (SmartDoor.destructor d))
    = Contractor.RETRACTED /\
  Contractor.getPosition (SmartDoor.doorActuator (SmartDoor.destructor d)) = 0 /\
  (SmartDoor.isSystemReady d = true ->
     SmartDoor.getState (SmartDoor.destructor d) = SmartDoor.CLOSED_LOCKED /\
     Servo.getAngle (SmartDoor.lockServo (SmartDoor.destructor d)) = 0) /\
  (SmartDoor.isSystemReady d = false -> SmartDoor.destructor d = d).
Proof.
  intros Hd. by_shape Hd.
  - destruct Hst as [[-> _] | [-> | [-> _]]]; cbn; repeat split; discriminate.
  - cbn. repeat split; discriminate.
  - cbn. repeat split; discriminate.
  - cbn. repeat split; discriminate.
Qed.

Lemma SmartDoor_destructor_closes_witness :
  Contractor.getPosition
    (SmartDoor.doorActuator
       (SmartDoor.destructor
          (SmartDoor.exec SmartDoor.CallOpen
             (SmartDoor.exec SmartDoor.CallInitialize (SmartDoor.new "D1"))))) = 0.
Proof.
  refine (proj1 (proj2 (SmartDoor_destructor_closes _ _))).
  apply SmartDoor.reach_call;
    [ apply SmartDoor.reach_call; [ apply SmartDoor.reach_new | exact I ]
    | left; reflexivity ].
Defined.

(** X22. [getStateString()] names the six door states with six different
    strings: equal names mean equal states. *)
Theorem SmartDoor_getStateString_injective (d1 d2 : SmartDoor.t) :
  SmartDoor.getStateString d1 = SmartDoor.getStateString d2 ->
  SmartDoor.getState d1 = SmartDoor.getState d2.
Proof.
  unfold SmartDoor.getStateString, SmartDoor.getState.
  destruct (SmartDoor.currentState d1), (SmartDoor.currentState d2);
    intros H; (reflexivity || discriminate H).
Qed.

Lemma SmartDoor_getStateString_injective_witness :
  SmartDoor.getState (SmartDoor.new "D1") = SmartDoor.getState (SmartDoor.new "D2").
Proof.
  refine (SmartDoor_getStateString_injective _ _ _). reflexivity.
Defined.

(** X23. A full cycle restores a ready reachable controller exactly: from
    [CLOSED_LOCKED], [open()] then [close()] gives back the state it started
    from, and from [OPEN], [close()] then [open()] does. *)
Theorem SmartDoor_open_close_roundtrip (d : SmartDoor.t) :
  SmartDoor.reachable d ->
  SmartDoor.isSystemReady d = true ->
  (SmartDoor.getState d = SmartDoor.CLOSED_LOCKED ->
     SmartDoor.close (snd (SmartDoor.open d)) = (true, d)) /\
  (SmartDoor.getState d = SmartDoor.OPEN ->
     SmartDoor.open (snd (SmartDoor.close d)) = (true, d)).
Proof.
  intros Hd. by_shape Hd; cbn; intros Hr; try discriminate Hr;
    split; intros H; (discriminate H || reflexivity).
Qed.

Lemma SmartDoor_open_close_roundtrip_witness :
  SmartDoor.close
    (snd (SmartDoor.open
            (SmartDoor.exec SmartDoor.CallInitialize (SmartDoor.new "D1"))))
  = (true, SmartDoor.exec SmartDoor.CallInitialize (SmartDoor.new "D1")).
Proof.
  refine (proj1 (SmartDoor_open_close_roundtrip _ _ _) _).
  - apply SmartDoor.reach_call; [apply SmartDoor.reach_new | exact I].
  - reflexivity.
  - reflexivity.
Defined.

(** X24. Until [initialize()] has run, no public call touches the
    hardware: on a reachable controller that is not ready, servo and
    actuator are exactly as constructed for its door id, the door is not
    [OPEN], and [open()] and [close()] fail. *)
Theorem SmartDoor_unready_hardware_untouched (d : SmartDoor.t) :
  SmartDoor.reachable d ->
  SmartDoor.isSystemReady d = false ->
  SmartDoor.lockServo d = Servo.new ("LockServo_" ++ SmartDoor.getDoorId d) /\
  SmartDoor.doorActuator d
    = Contractor.new ("DoorActuator_" ++ SmartDoor.getDoorId d) 250 /\
  SmartDoor.getState d <> SmartDoor.OPEN /\
  fst (SmartDoor.open d) = false /\
  fst (SmartDoor.close d) = false.
Proof.
  intros Hd. by_shape Hd; cbn; intros Hr; try discriminate Hr.
  repeat split.
  destruct Hst as [[-> _] | [-> | [-> _]]]; discriminate.
Qed.

Lemma SmartDoor_unready_hardware_untouched_witness :
  SmartDoor.lockServo
    (SmartDoor.exec SmartDoor.CallEmergencyStop
       (SmartDoor.exec SmartDoor.CallOpen (SmartDoor.new "D1")))
  = Servo.new "LockServo_D1".
Proof.
  refine (proj1 (SmartDoor_unready_hardware_untouched _ _ _)).
  - apply SmartDoor.reach_call; [ | exact I].
    apply SmartDoor.reach_call; [apply SmartDoor.reach_new | ].
    right. unfold INT_MAX. cbn. lia.
  - reflexivity.
Defined.

(** X25. A ready controller has exactly three reachable configurations,
    fixed by its door id: locked shut, stopped ([CLOSED_UNLOCKED] with the
    lock still at 0 and the actuator retracted) and open.  The actuator's
    speed is always 5 and its maximum extension 250. *)
Theorem SmartDoor_ready_configurations (d : SmartDoor.t) :
  (SmartDoor.reachable d /\ SmartDoor.isSystemReady d = true) <->
  (d = locked_door (SmartDoor.getDoorId d) \/
   d = stopped_door (SmartDoor.getDoorId d) \/
   d = open_door (SmartDoor.getDoorId d)).
Proof.
  split.
  - intros [Hd Hr]. by_shape Hd; cbn in *; try discriminate Hr; auto.
  - assert (Hl : forall id, SmartDoor.reachable (locked_door id)).
    { intros id.
      apply (SmartDoor.reach_call SmartDoor.CallInitialize (SmartDoor.new id));
        [apply SmartDoor.reach_new | exact I]. }
    intros [-> | [-> | ->]]; (split; [ | reflexivity ]).
    + apply Hl.
    + apply (SmartDoor.reach_call SmartDoor.CallEmergencyStop (locked_door _));
        [apply Hl | exact I].
    + apply (SmartDoor.reach_call SmartDoor.CallOpen (locked_door _));
        [apply Hl | left; reflexivity].
Qed.

Lemma SmartDoor_ready_configurations_witness :
  SmartDoor.exec SmartDoor.CallOpen
    (SmartDoor.exec SmartDoor.CallInitialize (SmartDoor.new "D1"))
  = open_door "D1".
Proof.
  destruct (proj1 (SmartDoor_ready_configurations
                     (SmartDoor.exec SmartDoor.CallOpen
                        (SmartDoor.exec SmartDoor.CallInitialize (SmartDoor.new "D1")))))
    as [H | [H | H]].
  - split; [ | reflexivity ].
    apply SmartDoor.reach_call;
      [ apply SmartDoor.reach_call; [ apply SmartDoor.reach_new | exact I ]
      | left; reflexivity ].
  - discriminate H.
  - discriminate H.
  - exact H.
Defined.

Lemma open_times_succ (n : nat) (d : SmartDoor.t) :
  open_times (S n) d = snd (SmartDoor.open (open_times n d)).
Proof. reflexivity. Qed.

(** X26. On a freshly constructed controller, [n] calls of [open()] in a
    row (with [n] up to [INT_MAX]) all fail; they leave the counter at [n],
    the devices untouched, and the door [CLOSED_LOCKED] for [n < 3] and in
    [ERROR_STATE] from the third call on. *)
Theorem SmartDoor_open_times_on_new (id : string) (n : nat) :
  Z.of_nat n <= INT_MAX ->
  open_times n (SmartDoor.new id)
    = unready_door id
        (if Z.of_nat n <? 3 then SmartDoor.CLOSED_LOCKED else SmartDoor.ERROR_STATE)
        (Z.of_nat n) /\
  fst (SmartDoor.open (open_times n (SmartDoor.new id))) = false.
Proof.
  induction n as [ | n IH]; intros Hn.
  - split; reflexivity.
  - destruct IH as [IH _]; [lia | ].
    assert (Hstep : open_times (S n) (SmartDoor.new id)
              = unready_door id
                  (if Z.of_nat (S n) <? 3
                   then SmartDoor.CLOSED_LOCKED else SmartDoor.ERROR_STATE)
                  (Z.of_nat (S n))).
    { rewrite open_times_succ, IH.
      unfold SmartDoor.open, unready_door. cbn -[Z.of_nat Z.ltb Z.geb].
      rewrite int_incr_no_overflow by (unfold INT_MIN, INT_MAX in *; lia).
      unfold SmartDoor.MAX_ATTEMPTS.
      replace (Z.of_nat (S n)) with (Z.of_nat n + 1) by lia.
      rewrite Z.geb_leb.
      destruct (Z.of_nat n + 1 <? 3) eqn:E1; destruct (Z.of_nat n <? 3) eqn:E2;
        destruct (3 <=? Z.of_nat n + 1) eqn:E3; cbn; try reflexivity;
        rewrite ?Z.ltb_lt, ?Z.ltb_ge, ?Z.leb_le, ?Z.leb_gt in *; lia. }
    split; [exact Hstep | ]. rewrite Hstep. reflexivity.
Qed.

Lemma SmartDoor_open_times_on_new_witness :
  open_times 5 (SmartDoor.new "D1") = unready_door "D1" SmartDoor.ERROR_STATE 5.
Proof.
  refine (proj1 (SmartDoor_open_times_on_new "D1" 5 _)).
  unfold INT_MAX. cbn. lia.
Defined.

(** X27. [emergencyStop()] overwrites [ERROR_STATE] but keeps the attempt
    counter: on a reachable controller in [ERROR_STATE] the stop leaves the
    door [CLOSED_UNLOCKED] and still unsafe, and the next [open()] fails
    and puts it back in [ERROR_STATE] at once. *)
Theorem SmartDoor_emergencyStop_then_open_in_error (d : SmartDoor.t) :
  SmartDoor.reachable d ->
  SmartDoor.getState d = SmartDoor.ERROR_STATE ->
  SmartDoor.openAttempts d < INT_MAX ->
  SmartDoor.getState (SmartDoor.emergencyStop d) = SmartDoor.CLOSED_UNLOCKED /\
  SmartDoor.isSafeToOperate (SmartDoor.emergencyStop d) = false /\
  fst (SmartDoor.open (SmartDoor.emergencyStop d)) = false /\
  SmartDoor.getState (snd (SmartDoor.open (SmartDoor.emergencyStop d)))
    = SmartDoor.ERROR_STATE /\
  SmartDoor.openAttempts (snd (SmartDoor.open (SmartDoor.emergencyStop d)))
    = SmartDoor.openAttempts d + 1.
Proof.
  intros Hd. by_shape Hd; cbn; try discriminate.
  intros -> Hlt. destruct Hst as [[H _] | [H | [_ H]]]; try discriminate H.
  unfold SmartDoor.open. cbn.
  rewrite int_incr_no_overflow by (unfold INT_MIN, INT_MAX in *; lia).
  unfold SmartDoor.MAX_ATTEMPTS.
  assert (E : (oa + 1 >=? 3) = true) by (apply Z.geb_le; lia).
  rewrite E. cbn. repeat split.
Qed.

Lemma SmartDoor_emergencyStop_then_open_in_error_witness :
  SmartDoor.getState
    (snd (SmartDoor.open (SmartDoor.emergencyStop
       (SmartDoor.exec SmartDoor.CallOpen
          (SmartDoor.exec SmartDoor.CallOpen
             (SmartDoor.exec SmartDoor.CallOpen (SmartDoor.new "D1")))))))
    = SmartDoor.ERROR_STATE.
Proof.
  refine (proj1 (proj2 (proj2 (proj2
    (SmartDoor_emergencyStop_then_open_in_error
       (SmartDoor.exec SmartDoor.CallOpen
          (SmartDoor.exec SmartDoor.CallOpen
             (SmartDoor.exec SmartDoor.CallOpen (SmartDoor.new "D1")))) _ _ _))))).
  - repeat (apply (SmartDoor.reach_call SmartDoor.CallOpen);
            [ | right; unfold INT_MAX; cbn; lia ]).
    apply SmartDoor.reach_new.
  - reflexivity.
  - unfold INT_MAX. cbn. lia.
Defined.
